(** * Model repositories of the TRAC runtime: a shallow embedding of
      [tracdap/rt/_impl/repos.py] and the properties of its specification.

    The development has two parts.  Part I embeds the Python module:
    credential handling for URLs, the four repository back ends, the parser
    for the HTML flavour of the PyPI simple index and the repository manager.
    Part II states and proves the properties.

    Conventions of the embedding.
    - Python [str] is [string]; characters are 8-bit.
    - [None]-able values are [option]; an exception is the [Raise] branch of
      [result], and code that can raise is written in the [result] monad.
    - Library calls whose behaviour is not part of the module (URL parsing
      and printing, JSON and zip decoding, HTML tokenising, the network and
      the process table) are variables of the sections that use them.
    - Calls to the logger are left out: they write to the log only. *)

From Stdlib Require Import ZArith Ascii String.
From stdpp Require Import base option strings list gmap pretty.

Set Warnings "-register-all".
Open Scope string_scope.
Open Scope list_scope.
#[global] Arguments String.append !_ _ : simpl nomatch.

(* ===================================================================== *)
(** * Part I: the embedding *)
(* ===================================================================== *)

(** ** Exceptions and the error monad *)

Inductive exn :=
| EConfigParse (msg : string)        (* _ex.EConfigParse *)
| EModelRepo (msg : string)          (* _ex.EModelRepo *)
| EModelRepoConfig (msg : string)    (* _ex.EModelRepoConfig *)
| ValueError
| IndexError
| TypeError
| AttributeError
| TimeoutExpired
| JSONDecodeError
| BadZipFile
| ConnectionError
| NotModelled.   (* not an exception: an outcome the embedding leaves open *)

Inductive result (A : Type) :=
| Ok (a : A)
| Raise (e : exn).
Arguments Ok {A} a.
Arguments Raise {A} e.

#[global] Instance result_ret : MRet result := fun _ a => Ok a.
#[global] Instance result_bind : MBind result := fun _ _ f r =>
  match r with
  | Ok a => f a
  | Raise e => Raise e
  end.

#[global] Instance result_fmap : FMap result := fun _ _ f r =>
  match r with
  | Ok a => Ok (f a)
  | Raise e => Raise e
  end.

(** [o] when it is there, the exception [e] otherwise. *)
Definition or_raise {A} (o : option A) (e : exn) : result A :=
  match o with
  | Some a => Ok a
  | None => Raise e
  end.

(** ** The [str] methods the module calls *)

Module Str.

Definition newline : ascii := ascii_of_nat 10.

(** [s.index(c)] for a one-character [c]; [None] is Python's [ValueError]. *)
Fixpoint index (c : ascii) (s : string) : option nat :=
  match s with
  | EmptyString => None
  | String a s' => if decide (a = c) then Some 0 else S <$> index c s'
  end.

(** [c in s]. *)
Definition contains (c : ascii) (s : string) : bool :=
  match index c s with
  | Some _ => true
  | None => false
  end.

(** The slice [s[:n]]. *)
Fixpoint take (n : nat) (s : string) : string :=
  match n, s with
  | S n', String a s' => String a (take n' s')
  | _, _ => EmptyString
  end.

(** The slice [s[n:]]. *)
Fixpoint drop (n : nat) (s : string) : string :=
  match n, s with
  | S n', String _ s' => drop n' s'
  | _, _ => s
  end.

(** [s.partition(c)]: the text before and after the first [c];
    [None] when [c] does not occur (Python then returns [(s, '', '')]). *)
Fixpoint partition (c : ascii) (s : string) : option (string * string) :=
  match s with
  | EmptyString => None
  | String a s' =>
      if decide (a = c) then Some (EmptyString, s')
      else prod_map (String a) id <$> partition c s'
  end.

(** [s.rpartition(c)]: the text before and after the last [c];
    [None] when [c] does not occur (Python then returns [('', '', s)]). *)
Fixpoint rpartition (c : ascii) (s : string) : option (string * string) :=
  match s with
  | EmptyString => None
  | String a s' =>
      match rpartition c s' with
      | Some (l, r) => Some (String a l, r)
      | None => if decide (a = c) then Some (EmptyString, s') else None
      end
  end.

(** [s.replace(c, new)] for a one-character [c]. *)
Fixpoint replace (c : ascii) (new : string) (s : string) : string :=
  match s with
  | EmptyString => EmptyString
  | String a s' =>
      if decide (a = c) then new +:+ replace c new s'
      else String a (replace c new s')
  end.

(** [s.split(c)] for a one-character separator. *)
Fixpoint split (c : ascii) (s : string) : list string :=
  match s with
  | EmptyString => [EmptyString]
  | String a s' =>
      if decide (a = c) then EmptyString :: split c s'
      else match split c s' with
           | w :: ws => String a w :: ws
           | [] => [String a EmptyString]
           end
  end.

(** [sep.join(l)]. *)
Fixpoint join (sep : string) (l : list string) : string :=
  match l with
  | [] => EmptyString
  | [w] => w
  | w :: ws => w +:+ sep +:+ join sep ws
  end.

(** The characters [str.strip()] removes. *)
Definition is_space (a : ascii) : bool :=
  let n := nat_of_ascii a in
  (((9 <=? n) && (n <=? 13)) || ((28 <=? n) && (n <=? 32)))%nat.

Fixpoint lstrip (s : string) : string :=
  match s with
  | EmptyString => EmptyString
  | String a s' => if is_space a then lstrip s' else s
  end.

Fixpoint rstrip (s : string) : string :=
  match s with
  | EmptyString => EmptyString
  | String a s' =>
      match rstrip s' with
      | EmptyString => if is_space a then EmptyString else String a EmptyString
      | r => String a r
      end
  end.

Definition strip (s : string) : string := rstrip (lstrip s).

(** Truth value of a string: non-empty. *)
Definition truthy (s : string) : bool :=
  match s with
  | EmptyString => false
  | String _ _ => true
  end.

End Str.

(** ** Configuration and metadata objects *)

(** [_cfg.PluginConfig]: the protocol and the string-keyed properties. *)
Record PluginConfig := {
  protocol : string;
  properties : gmap string string
}.

(** [_meta.ModelDefinition], the artifact reference. *)
Record ModelDefinition := {
  repository : string;
  package : string;
  packageGroup : option string;
  version : string;
  path : string
}.

Module _util.

(** Modelled from the spec: [_util.get_plugin_property] is defined in
    another module of the runtime; the configuration is "a mapping of
    string-keyed plugin properties", so the property is the value stored
    under the key, and [None] when the key is not there. *)
Definition get_plugin_property (config : PluginConfig) (property_name : string)
  : option string :=
  properties config !! property_name.

End _util.

(** ** [urllib.parse.ParseResult] *)

Record ParseResult := {
  scheme : string;
  netloc : string;
  url_path : string;
  params : string;
  query : string;
  fragment : string
}.

Module Url.

(** [url._replace(netloc=location)] *)
Definition _replace_netloc (url : ParseResult) (location : string) : ParseResult :=
  {| scheme := scheme url; netloc := location; url_path := url_path url;
     params := params url; query := query url; fragment := fragment url |}.

(** [url._replace(path=p)] *)
Definition _replace_path (url : ParseResult) (p : string) : ParseResult :=
  {| scheme := scheme url; netloc := netloc url; url_path := p;
     params := params url; query := query url; fragment := fragment url |}.

(** [_NetlocResultMixinStr._userinfo]: user name and password, read from
    the text before the last ["@"] of the authority. *)
Definition _userinfo (url : ParseResult) : option string * option string :=
  match Str.rpartition "@" (netloc url) with
  | Some (userinfo, _) =>
      match Str.partition ":" userinfo with
      | Some (u, p) => (Some u, Some p)
      | None => (Some userinfo, None)
      end
  | None => (None, None)
  end.

Definition username (url : ParseResult) : option string := fst (_userinfo url).
Definition password (url : ParseResult) : option string := snd (_userinfo url).

(** [_NetlocResultMixinStr._hostinfo]: host name and port text, read from
    the text after the last ["@"] of the authority. *)
Definition _hostinfo (url : ParseResult) : string * option string :=
  let hostinfo :=
    match Str.rpartition "@" (netloc url) with
    | Some (_, h) => h
    | None => netloc url
    end in
  let '(hostname, port) :=
    match Str.partition "[" hostinfo with
    | Some (_, bracketed) =>
        let '(hostname, port) :=
          match Str.partition "]" bracketed with
          | Some (h, p) => (h, p)
          | None => (bracketed, EmptyString)
          end in
        (hostname, match Str.partition ":" port with
                   | Some (_, p) => p
                   | None => EmptyString
                   end)
    | None =>
        match Str.partition ":" hostinfo with
        | Some (h, p) => (h, p)
        | None => (hostinfo, EmptyString)
        end
    end in
  (hostname, if Str.truthy port then Some port else None).

End Url.

(** ** Helper functions for handling credentials supplied via HTTP(S) URLs *)

Definition __REPO_TOKEN_KEY : string := "token".
Definition __REPO_USER_KEY : string := "username".
Definition __REPO_PASS_KEY : string := "password".

Definition _get_credentials (url : ParseResult) (plugin_config : PluginConfig)
  : result (option string) :=
  let token := _util.get_plugin_property plugin_config __REPO_TOKEN_KEY in
  let username := _util.get_plugin_property plugin_config __REPO_USER_KEY in
  let password := _util.get_plugin_property plugin_config __REPO_PASS_KEY in
  match token with
  | Some t => Ok (Some t)
  | None =>
      match username, password with
      | Some u, Some p => Ok (Some (u +:+ ":" +:+ p))
      | _, _ =>
          match Url.username url with
          | Some (String _ _) =>
              credentials_sep ← or_raise (Str.index "@" (netloc url)) ValueError;
              Ok (Some (Str.take credentials_sep (netloc url)))
          | _ => Ok None
          end
      end
  end.

Definition _apply_credentials (url : ParseResult) (credentials : option string)
  : result ParseResult :=
  match credentials with
  | None => Ok url
  | Some credentials =>
      location ←
        match Url.username url with
        | None => Ok (credentials +:+ "@" +:+ netloc url)
        | Some _ =>
            location_sep ← or_raise (Str.index "@" (netloc url)) ValueError;
            Ok (credentials +:+ "@" +:+ Str.drop (location_sep + 1) (netloc url))
        end;
      Ok (Url._replace_netloc url location)
  end.

(** ** Python values: what [json] decodes to and what the HTML parser builds *)

Inductive pyval :=
| VNone
| VBool (b : bool)
| VInt (z : Z)
| VStr (s : string)
| VList (l : list pyval)
| VDict (d : gmap string pyval).

Module Py.

(** Truth value testing. *)
Definition truthy (v : pyval) : bool :=
  match v with
  | VNone => false
  | VBool b => b
  | VInt z => negb (z =? 0)%Z
  | VStr s => Str.truthy s
  | VList l => match l with [] => false | _ => true end
  | VDict d => negb (bool_decide (d = ∅))
  end.

(** [x or y] *)
Definition or (x y : pyval) : pyval := if truthy x then x else y.

(** [d.get(key)] on a dict: the value, or [None]. *)
Definition dict_get (d : gmap string pyval) (key : string) : pyval :=
  default VNone (d !! key).

(** [obj.get(key)]: only a dict has the method. *)
Definition get (obj : pyval) (key : string) : result pyval :=
  match obj with
  | VDict d => Ok (dict_get d key)
  | _ => Raise AttributeError
  end.

(** [v == s] for a string [s]. *)
Definition eq_str (v : pyval) (s : string) : bool :=
  match v with
  | VStr s' => bool_decide (s' = s)
  | _ => false
  end.

(** [str(x)] for an optional string. *)
Definition str_of_option (o : option string) : string := default "None" o.

End Py.

(** ** The fragment of [re] the module uses

    Patterns are compiled to a list of nodes and matched by backtracking, as
    [re.match] does: anchored at the start of the subject, free at its end.
    The fragment has ordinary characters, [.], an escaped punctuation
    character, [^], a greedy [*] after a one-character item and named
    groups.  Other syntax is reported as [NotModelled]. *)

Module re.

Inductive node :=
| At_beginning                    (* ^ *)
| Literal (c : ascii)             (* an ordinary or an escaped character *)
| Any                             (* . : any character but a newline *)
| Max_repeat (item : node)        (* item*, greedy *)
| Group_open (name : string)      (* (?P<name> *)
| Group_close (name : string).    (* the ) of that group *)

Definition is_alnum (a : ascii) : bool :=
  let n := nat_of_ascii a in
  (((48 <=? n) && (n <=? 57)) || ((65 <=? n) && (n <=? 90))
   || ((97 <=? n) && (n <=? 122)))%nat.

(** The characters with a meaning of their own in a pattern. *)
Definition is_special (a : ascii) : bool :=
  Str.contains a ".^$*+?{}[]\|()".

(** One-character items, the ones [*] may follow here. *)
Definition is_single (x : node) : bool :=
  match x with
  | Literal _ | Any => true
  | _ => false
  end.

Inductive pstate :=
| Normal
| Escape                          (* after a backslash *)
| Paren                           (* after ( *)
| ParenQ                          (* after (? *)
| ParenQP                         (* after (?P *)
| GroupName (name : string).      (* after (?P< *)

(** The parser: [acc] holds the nodes read so far, newest first, and
    [opened] the names of the groups that are open. *)
Fixpoint parse (st : pstate) (opened : list string) (acc : list node)
    (s : string) : option (list node) :=
  match s with
  | EmptyString =>
      match st, opened with
      | Normal, [] => Some (rev acc)
      | _, _ => None
      end
  | String a s' =>
      match st with
      | Normal =>
          if decide (a = "\"%char) then parse Escape opened acc s'
          else if decide (a = "("%char) then parse Paren opened acc s'
          else if decide (a = ")"%char) then
            match opened with
            | name :: opened' => parse Normal opened' (Group_close name :: acc) s'
            | [] => None
            end
          else if decide (a = "*"%char) then
            match acc with
            | x :: acc' =>
                if is_single x then parse Normal opened (Max_repeat x :: acc') s'
                else None
            | [] => None
            end
          else if decide (a = "^"%char) then parse Normal opened (At_beginning :: acc) s'
          else if decide (a = "."%char) then parse Normal opened (Any :: acc) s'
          else if is_special a then None
          else parse Normal opened (Literal a :: acc) s'
      | Escape =>
          if is_alnum a then None
          else parse Normal opened (Literal a :: acc) s'
      | Paren => if decide (a = "?"%char) then parse ParenQ opened acc s' else None
      | ParenQ => if decide (a = "P"%char) then parse ParenQP opened acc s' else None
      | ParenQP =>
          if decide (a = "<"%char) then parse (GroupName "") opened acc s' else None
      | GroupName name =>
          if decide (a = ">"%char) then
            parse Normal (name :: opened) (Group_open name :: acc) s'
          else if is_alnum a || bool_decide (a = "_"%char) then
            parse (GroupName (name +:+ String a "")) opened acc s'
          else None
      end
  end.

(** [re.compile(pattern)] *)
Definition compile (pattern : string) : result (list node) :=
  or_raise (parse Normal [] [] pattern) NotModelled.

(** Whether a one-character item accepts a character. *)
Definition accepts (x : node) (a : ascii) : bool :=
  match x with
  | Literal c => bool_decide (a = c)
  | Any => negb (bool_decide (a = Str.newline))
  | _ => false
  end.

(** The spans of the groups, as positions in the subject. *)
Abbreviation spans := (gmap string (nat * nat)).

(** A greedy [item*] followed by the rest of the pattern, [k]: as many
    characters as the item accepts, giving them back one at a time while
    the rest fails. *)
Fixpoint star (x : node) (k : nat → string → option spans)
    (pos : nat) (s : string) : option spans :=
  match s with
  | String a s' =>
      if accepts x a then
        match star x k (S pos) s' with
        | Some r => Some r
        | None => k pos s
        end
      else k pos s
  | EmptyString => k pos s
  end.

(** The backtracking matcher.  [s] is what is left of the subject at
    position [pos]; [opens] holds where the open groups started. *)
Fixpoint exec (p : list node) (pos : nat) (s : string)
    (opens : gmap string nat) (sp : spans) : option spans :=
  match p with
  | [] => Some sp
  | At_beginning :: p' =>
      if decide (pos = 0) then exec p' pos s opens sp else None
  | Literal c :: p' =>
      match s with
      | String a s' =>
          if decide (a = c) then exec p' (S pos) s' opens sp else None
      | EmptyString => None
      end
  | Any :: p' =>
      match s with
      | String a s' =>
          if decide (a = Str.newline) then None else exec p' (S pos) s' opens sp
      | EmptyString => None
      end
  | Max_repeat x :: p' =>
      star x (λ pos s, exec p' pos s opens sp) pos s
  | Group_open name :: p' => exec p' pos s (<[name := pos]> opens) sp
  | Group_close name :: p' =>
      match opens !! name with
      | Some start => exec p' pos s opens (<[name := (start, pos)]> sp)
      | None => None
      end
  end.

(** A match object: the subject and the spans of the groups. *)
Record Match := { subject : string; groups : spans }.

(** [pattern.match(s)] *)
Definition match_ (p : list node) (s : string) : option Match :=
  (λ sp, {| subject := s; groups := sp |}) <$> exec p 0 s ∅ ∅.

(** [m.group(name)]; a group of the pattern that took part in the match. *)
Definition group (m : Match) (name : string) : option string :=
  (λ '(i, j), Str.take (j - i) (Str.drop i (subject m))) <$> groups m !! name.

End re.

(** ** What [html.parser.HTMLParser] reports to its handlers *)

Definition attrs := list (string * option string).

Inductive html_event :=
| StartTag (tag : string) (a : attrs)
| EndTag (tag : string)
| Data (data : string).

(** ** The library functions and the platform the back ends are written
    against *)

Record Platform := {
  is_windows : bool;                              (* _util.is_windows() *)
  joinpath : string → string → string;            (* pathlib.Path.joinpath *)
  urlparse : string → ParseResult;                (* urllib.parse.urlparse *)
  geturl : ParseResult → string;                  (* ParseResult.geturl *)
  urljoin : string → string → string;             (* urllib.parse.urljoin *)
  json_loads : string → option pyval;             (* Response.json; None: JSONDecodeError *)
  html_events : string → list html_event;         (* the tokens HTMLParser.feed finds *)
  zip_open : string → option (list (string * string))  (* zipfile.ZipFile; None: BadZipFile *)
}.

(** ** Effects: processes, the network and the file system

    A checkout acts on the outside world.  What it does is recorded as a
    trace of events, oldest first; what the world answers is a function of
    the trace so far and of the request, so that the same request may be
    answered differently the second time. *)

(** [subprocess.CompletedProcess]: the return code and the output, as the
    lines of text the code logs. *)
Record CompletedProcess := {
  returncode : Z;
  stdout : list string;
  stderr : list string
}.

(** The outcome of [subprocess.run(..., timeout=...)]: the process ended,
    or the timeout expired. *)
Inductive run_result :=
| Completed (p : CompletedProcess)
| Expired.

(** A [requests.Response]. *)
Record Response := {
  status_code : Z;
  reason : string;
  headers : gmap string string;
  content : string;
  response_url : string
}.

Inductive event :=
| Run (cmd : list string) (cwd : string) (timeout : Z)   (* sp.run(cmd, cwd=, timeout=) *)
| RunShell (cmd : string)                                (* subprocess.run(cmd) *)
| Sleep (seconds : Z)                                    (* time.sleep *)
| HttpGet (url : string) (accept : option string)        (* requests.get *)
| ExtractAll (dir : string) (archive : list (string * string)).  (* ZipFile.extractall *)

Definition trace := list event.

(** A computation that extends the trace and returns or raises. *)
Definition action (A : Type) : Type := trace → result A * trace.

#[global] Instance action_ret : MRet action := fun _ a t => (Ok a, t).
#[global] Instance action_bind : MBind action := fun _ _ f m t =>
  match m t with
  | (Ok a, t') => f a t'
  | (Raise e, t') => (Raise e, t')
  end.

#[global] Instance action_fmap : FMap action := fun _ _ f m t =>
  match m t with
  | (Ok a, t') => (Ok (f a), t')
  | (Raise e, t') => (Raise e, t')
  end.

Definition raise {A} (e : exn) : action A := fun t => (Raise e, t).
Definition lift {A} (r : result A) : action A := fun t => (r, t).
Definition emit (e : event) : action unit := fun t => (Ok tt, t ++ [e]).

(** The world: how processes and servers answer. *)
Record World := {
  process : trace → list string → run_result;
  http : trace → string → option string → result Response
}.

Module sp.
(** [sp.run(cmd, cwd=cwd, stdout=sp.PIPE, stderr=sp.PIPE, timeout=timeout)] *)
Definition run (w : World) (cmd : list string) (cwd : string) (timeout : Z)
  : action CompletedProcess :=
  fun t =>
    match process w t cmd with
    | Completed p => (Ok p, t ++ [Run cmd cwd timeout])
    | Expired => (Raise TimeoutExpired, t ++ [Run cmd cwd timeout])
    end.
End sp.

Module requests.
(** [requests.get(url, headers={"accept": accept})] *)
Definition get (w : World) (url : string) (accept : option string)
  : action Response :=
  fun t => (http w t url accept, t ++ [HttpGet url accept]).
End requests.

(** ** The repository interface, [tracdap.rt.ext.repos.IModelRepository] *)

Class IModelRepository (R : Type) := {
  checkout_key : R → ModelDefinition → string;
  package_path : R → ModelDefinition → string → option string;
  do_checkout : R → ModelDefinition → string → action (option string)
}.

Definition dquote : string := String (ascii_of_nat 34) "".

Module IntegratedSource.

Record t := { _repo_config : PluginConfig }.

Definition __init__ (repo_config : PluginConfig) : result t :=
  Ok {| _repo_config := repo_config |}.

Definition checkout_key (self : t) (model_def : ModelDefinition) : string :=
  "trac_integrated".

Definition package_path (self : t) (model_def : ModelDefinition)
    (checkout_dir : string) : option string :=
  None.

(* For the integrated repo there is nothing to check out *)
Definition do_checkout (self : t) (model_def : ModelDefinition)
    (checkout_dir : string) : action (option string) :=
  mret (package_path self model_def checkout_dir).

#[global] Instance repo : IModelRepository t :=
  Build_IModelRepository t checkout_key package_path do_checkout.

End IntegratedSource.

Module LocalRepository.

Definition REPO_URL_KEY : string := "repoUrl".

Record t := { _repo_config : PluginConfig; _repo_url : string }.

Definition __init__ (repo_config : PluginConfig) : result t :=
  match _util.get_plugin_property repo_config REPO_URL_KEY with
  | Some (String _ _ as repo_url) =>
      Ok {| _repo_config := repo_config; _repo_url := repo_url |}
  | _ =>
      Raise (EConfigParse
        ("Missing required property [" +:+ REPO_URL_KEY +:+ "] in local repository config"))
  end.

Definition checkout_key (self : t) (model_def : ModelDefinition) : string :=
  "trac_local".

Section platform.
Context (pf : Platform).

Definition package_path (self : t) (model_def : ModelDefinition)
    (checkout_dir : string) : option string :=
  let checkout_path := joinpath pf (_repo_url self) (path model_def) in
  Some checkout_path.

(* For local repos, checkout is a no-op since the model is already local *)
Definition do_checkout (self : t) (model_def : ModelDefinition)
    (checkout_dir : string) : action (option string) :=
  mret (package_path self model_def checkout_dir).

#[global] Instance repo : IModelRepository t :=
  Build_IModelRepository t checkout_key package_path do_checkout.
End platform.

End LocalRepository.

Module GitRepository.

Definition REPO_URL_KEY : string := "repoUrl".
Definition GIT_TIMEOUT_SECONDS : Z := 30.

Record t := { _repo_config : PluginConfig; _repo_url : ParseResult }.

Definition checkout_key (self : t) (model_def : ModelDefinition) : string :=
  version model_def.

Section platform.
Context (pf : Platform) (w : World).

Definition __init__ (repo_config : PluginConfig) : result t :=
  match _util.get_plugin_property repo_config REPO_URL_KEY with
  | Some (String _ _ as repo_url_prop) =>
      let repo_url := urlparse pf repo_url_prop in
      credentials ← _get_credentials repo_url repo_config;
      repo_url ← _apply_credentials repo_url credentials;
      Ok {| _repo_config := repo_config; _repo_url := repo_url |}
  | _ =>
      Raise (EConfigParse
        ("Missing required property [" +:+ REPO_URL_KEY +:+ "] in Git repository config"))
  end.

Definition package_path (self : t) (model_def : ModelDefinition)
    (checkout_dir : string) : option string :=
  Some (joinpath pf checkout_dir (path model_def)).

Definition git_cmds (self : t) (model_def : ModelDefinition) : list (list string) :=
  [ ["init"];
    ["remote"; "add"; "origin"; geturl pf (_repo_url self)];
    ["fetch"; "--depth=1"; "origin"; version model_def];
    ["reset"; "--hard"; "FETCH_HEAD"] ].

(** The command-line prefix; on Windows with the long-path flag. *)
Definition git_cli (checkout_dir : string) : list string :=
  ["git"; "-C"; checkout_dir] ++
  (if is_windows pf then ["-c"; "core.longpaths=true"] else []).

(** The body of the loop [for git_cmd in git_cmds] for one command. *)
Definition run_git_cmd (model_def : ModelDefinition) (checkout_dir : string)
    (git_cmd : list string) : action unit :=
  let cmd := git_cli checkout_dir ++ git_cmd in
  cmd_result ← sp.run w cmd checkout_dir GIT_TIMEOUT_SECONDS;
  cmd_result ←
    (if decide (returncode cmd_result ≠ 0%Z) then
       emit (Sleep 1);;
       sp.run w cmd checkout_dir GIT_TIMEOUT_SECONDS
     else mret cmd_result);
  if decide (returncode cmd_result = 0%Z) then mret tt
  else
    let error_msg :=
      "Git checkout failed for " +:+ package model_def +:+ " " +:+ version model_def in
    raise (EModelRepo error_msg).

(** The loop: the commands in order, stopping at the first that raises. *)
Fixpoint run_git_cmds (model_def : ModelDefinition) (checkout_dir : string)
    (cmds : list (list string)) : action unit :=
  match cmds with
  | [] => mret tt
  | git_cmd :: cmds' =>
      run_git_cmd model_def checkout_dir git_cmd;;
      run_git_cmds model_def checkout_dir cmds'
  end.

Definition do_checkout (self : t) (model_def : ModelDefinition)
    (checkout_dir : string) : action (option string) :=
  (* Work around Windows issues: take ownership of the directory; a
     failure of that command is caught and logged *)
  (if is_windows pf then
     emit (RunShell ("takeown /f " +:+ dquote +:+ checkout_dir +:+ dquote))
   else mret tt);;
  run_git_cmds model_def checkout_dir (git_cmds self model_def);;
  mret (package_path self model_def checkout_dir).

#[global] Instance repo : IModelRepository t :=
  Build_IModelRepository t checkout_key package_path do_checkout.
End platform.

End GitRepository.

(** ** The parser for the HTML flavour of the simple index *)

Module _PypiSimpleHtmlParser.

(** The parser object.  The three last fields are the entries of
    [self.response]: [response["meta"]["api-version"]], [response["name"]]
    and [response["files"]]. *)
Record t := {
  _package_url : string;
  _stack : list (string * attrs);      (* a Python list: the top is the last item *)
  _data : option string;
  api_version : option string;
  name : string;
  files : list pyval
}.

Definition __init__ (package_name package_url : string) : t :=
  {| _package_url := package_url; _stack := []; _data := None;
     api_version := None; name := package_name; files := [] |}.

(** [self.response], the object as per PEP-691. *)
Definition response (self : t) : pyval :=
  VDict (<["meta" := VDict {["api-version" := from_option VStr VNone (api_version self)]}]>
         (<["name" := VStr (name self)]>
         (<["files" := VList (files self)]> ∅))).

Definition set_stack (self : t) (stack : list (string * attrs)) : t :=
  {| _package_url := _package_url self; _stack := stack; _data := _data self;
     api_version := api_version self; name := name self; files := files self |}.

Definition set_data (self : t) (data : option string) : t :=
  {| _package_url := _package_url self; _stack := _stack self; _data := data;
     api_version := api_version self; name := name self; files := files self |}.

Definition set_api_version (self : t) (v : option string) : t :=
  {| _package_url := _package_url self; _stack := _stack self; _data := _data self;
     api_version := v; name := name self; files := files self |}.

Definition append_file (self : t) (file_info : pyval) : t :=
  {| _package_url := _package_url self; _stack := _stack self; _data := _data self;
     api_version := api_version self; name := name self;
     files := files self ++ [file_info] |}.

(** [list.pop()]: the last item and the list without it; [None] is
    Python's [IndexError] on an empty list. *)
Definition pop {A} (l : list A) : option (A * list A) :=
  match reverse l with
  | x :: r => Some (x, reverse r)
  | [] => None
  end.

(** [any(l)] for a list of (non-empty) tuples. *)
Definition any_tuple {A} (l : list A) : bool :=
  match l with
  | [] => false
  | _ :: _ => true
  end.

Definition _record_meta (self : t) (a : attrs) : t :=
  let content_attr := filter (λ x, x.1 = "content") a in
  match content_attr with
  | [(_, version)] => set_api_version self version
  | _ => self
  end.

Definition handle_starttag (self : t) (tag : string) (a : attrs) : t :=
  let element := (tag, a) in
  let self := set_stack self (_stack self ++ [element]) in
  let self := set_data self None in
  if bool_decide (tag = "meta")
     && existsb (λ x, bool_decide (x.1 = "name")
                      && bool_decide (x.2 = Some "pypi:repository-version")) a
  then _record_meta self a
  else self.

Section platform.
Context (pf : Platform).

Definition _record_link (self : t) (filename : string) (a : attrs) : result t :=
  let href_attr := filter (λ x, x.1 = "href") a in
  let yanked_attr := filter (λ x, x.1 = "data-yanked") a in
  let python_version_attr := filter (λ x, x.1 = "data-requires-python") a in
  match href_attr with
  | [(_, href_url)] =>
      let is_yanked := any_tuple yanked_attr in
      let required_python :=
        match python_version_attr with
        | [(_, v)] => v
        | _ => None
        end in
      (* ["#" in href_url] raises when the attribute has no value *)
      href_url ← or_raise href_url TypeError;
      let '(href_url, hash_info) :=
        match Str.index "#" href_url with
        | Some sep =>
            (Str.take sep href_url,
             Some (Str.split "=" (Str.drop (sep + 1) href_url)))
        | None => (href_url, None)
        end in
      (* URL in the HREF attribute can be absolute or relative *)
      let file_url := urljoin pf (_package_url self) href_url in
      let hashes : gmap string pyval :=
        match hash_info with
        | Some [algo; digest] => {[algo := VStr digest]}
        | _ => ∅
        end in
      let file_info :=
        VDict (<["filename" := VStr filename]>
               (<["url" := VStr file_url]>
               (<["hashes" := VDict hashes]>
               (<["yanked" := VBool is_yanked]> ∅)))) in
      Ok (append_file self file_info)
  | _ => Ok self
  end.

(** The loop [while stack_tag != tag and len(self._stack) > 0], on the
    stack read from its top. *)
Fixpoint pop_until (tag stack_tag : string) (top_first : list (string * attrs))
  : list (string * attrs) :=
  match top_first with
  | [] => []
  | (stack_tag', _) :: rest =>
      if decide (stack_tag = tag) then top_first
      else pop_until tag stack_tag' rest
  end.

Definition handle_endtag (self : t) (tag : string) : result t :=
  '(top, stack) ← or_raise (pop (_stack self)) IndexError;
  let '(stack_tag, stack_attrs) := top in
  let self := set_stack self stack in
  self ←
    match _data self with
    | Some data =>
        if bool_decide (tag = "a") && bool_decide (stack_tag = "a")
        then _record_link self data stack_attrs
        else Ok self
    | None => Ok self
    end;
  Ok (set_stack self (reverse (pop_until tag stack_tag (reverse (_stack self))))).

Definition handle_data (self : t) (data : string) : t :=
  let stripped_data := Str.strip data in
  set_data self (if Str.truthy stripped_data then Some stripped_data else None).

Definition handle (self : t) (ev : html_event) : result t :=
  match ev with
  | StartTag tag a => Ok (handle_starttag self tag a)
  | EndTag tag => handle_endtag self tag
  | Data data => Ok (handle_data self data)
  end.

Fixpoint handle_all (self : t) (evs : list html_event) : result t :=
  match evs with
  | [] => Ok self
  | ev :: evs' => self ← handle self ev; handle_all self evs'
  end.

(** [HTMLParser.feed(text)]: the handlers run on the tokens in order. *)
Definition feed (self : t) (text : string) : result t :=
  handle_all self (html_events pf text).

End platform.

End _PypiSimpleHtmlParser.

(** ** The PyPI back end *)

Module PyPiRepository.

Definition PIP_INDEX_KEY : string := "pipIndex".
Definition PIP_INDEX_URL_KEY : string := "pipIndexUrl".

Definition PIP_SIMPLE_FORMAT_KEY : string := "pipSimpleFormat".
Definition PIP_SIMPLE_FORMAT_JSON : string := "json".
Definition PIP_SIMPLE_FORMAT_HTML : string := "html".
Definition PIP_SIMPLE_FORMAT_DEFAULT : string := PIP_SIMPLE_FORMAT_JSON.

Definition PIP_SIMPLE_TYPE_JSON : string := "application/vnd.pypi.simple.v1+json".
Definition PIP_SIMPLE_TYPE_HTML : string := "text/html".

Definition PIP_SIMPLE_CONTENT_TYPES : gmap string string :=
  <[PIP_SIMPLE_FORMAT_JSON := PIP_SIMPLE_TYPE_JSON]>
    (<[PIP_SIMPLE_FORMAT_HTML := PIP_SIMPLE_TYPE_HTML]> ∅).

(** The path templates ["{}/{}/"] and ["{}/{}/{}/json"], formatted with
    the root path, the package and the version. *)
Definition SIMPLE_PACKAGE_PATH (root package version : string) : string :=
  root +:+ "/" +:+ package +:+ "/".
Definition JSON_PACKAGE_PATH (root package version : string) : string :=
  root +:+ "/" +:+ package +:+ "/" +:+ version +:+ "/json".

Record t := {
  _repo_config : PluginConfig;
  _pip_index : option string;
  _pip_index_url : option string;
  _pip_simple_format : option string
}.

Definition __init__ (repo_config : PluginConfig) : result t :=
  let pip_index := _util.get_plugin_property repo_config PIP_INDEX_KEY in
  let pip_index_url := _util.get_plugin_property repo_config PIP_INDEX_URL_KEY in
  let pip_simple_format := _util.get_plugin_property repo_config PIP_SIMPLE_FORMAT_KEY in
  match pip_index, pip_index_url with
  | None, None =>
      let message :=
        "Neither [" +:+ PIP_INDEX_KEY +:+ "] nor [" +:+ PIP_INDEX_URL_KEY
        +:+ " is set in PyPi repository config" in
      Raise (EConfigParse message)
  | _, _ =>
      Ok {| _repo_config := repo_config; _pip_index := pip_index;
            _pip_index_url := pip_index_url;
            _pip_simple_format := pip_simple_format |}
  end.

Definition checkout_key (self : t) (model_def : ModelDefinition) : string :=
  version model_def.

Definition package_path (self : t) (model_def : ModelDefinition)
    (checkout_dir : string) : option string :=
  Some checkout_dir.

Definition _pypi_simple_content_type (self : t) : string :=
  match _pip_simple_format self ≫= (PIP_SIMPLE_CONTENT_TYPES !!.) with
  | Some content_type => content_type
  | None => default "" (PIP_SIMPLE_CONTENT_TYPES !! PIP_SIMPLE_FORMAT_DEFAULT)
  end.

(** A value that must be a [str] for a [str] method to be called on it. *)
Definition as_str (v : pyval) (e : exn) : result string :=
  match v with
  | VStr s => Ok s
  | _ => Raise e
  end.

(** The loop [for file_info in files] of [_pypi_simple_parse_response];
    a match is the triple [filename, url, target]. *)
Fixpoint collect_matches (file_pattern : list re.node) (files : list pyval)
    (matches : list (string * pyval * string))
  : result (list (string * pyval * string)) :=
  match files with
  | [] => Ok matches
  | file_info :: files' =>
      filename ← Py.get file_info "filename";
      let filename := Py.or filename (VStr "") in
      yanked ← Py.get file_info "yanked";
      let yanked := Py.or yanked (VBool false) in
      filename ← as_str filename TypeError;
      match re.match_ file_pattern filename with
      | Some m =>
          if negb (Py.truthy yanked) then
            url ← Py.get file_info "url";
            target ← or_raise (re.group m "target") IndexError;
            let match_info := (filename, url, target) in
            collect_matches file_pattern files' (matches ++ [match_info])
          else collect_matches file_pattern files' matches
      | None => collect_matches file_pattern files' matches
      end
  end.

(** The text of the pattern: an f-string of the name pattern, the version
    pattern and the named group for the target. *)
Definition file_pattern_text (package_name version : string) : string :=
  let name_pattern := Str.replace "-" "_" package_name in
  let version_pattern := Str.replace "." "\." version in
  "^" +:+ name_pattern +:+ "-" +:+ version_pattern +:+ "-(?P<target>.*)\.whl".

Definition _pypi_simple_parse_response (model_def : ModelDefinition)
    (package_obj : pyval) : result (string * pyval) :=
  package_name ← Py.get package_obj "name";
  let package_name := Py.or package_name (VStr (package model_def)) in
  files ← Py.get package_obj "files";
  let files := Py.or files (VList []) in
  package_name ← as_str package_name AttributeError;
  file_pattern ← re.compile (file_pattern_text package_name (version model_def));
  files ←
    match files with
    | VList l => Ok l
    | VStr _ | VDict _ => Raise AttributeError   (* its items have no [get] *)
    | _ => Raise TypeError                       (* not iterable *)
    end;
  matches ← collect_matches file_pattern files [];
  match matches with
  | [] =>
      let message :=
        "No package found for [" +:+ package_name +:+ "] version ["
        +:+ version model_def +:+ "]" in
      Raise (EModelRepo message)
  | [(filename, url, target)] => Ok (filename, url)
  | _ =>
      let message :=
        "Multiple packages found for [" +:+ package_name +:+ "] version ["
        +:+ version model_def +:+ "]"
        +:+ " (targets: " +:+ Str.join ", " (map (λ m, m.2) matches) +:+ ")" in
      Raise (EModelRepo message)
  end.

(** [filter(lambda d: d.get("packagetype") == "bdist_wheel", urls)] *)
Fixpoint bdist_wheels (urls : list pyval) : result (list pyval) :=
  match urls with
  | [] => Ok []
  | d :: urls' =>
      packagetype ← Py.get d "packagetype";
      rest ← bdist_wheels urls';
      Ok (if Py.eq_str packagetype "bdist_wheel" then d :: rest else rest)
  end.

Section platform.
Context (pf : Platform) (w : World).

Definition _pypi_package_query
    (package_path_template : string → string → string → string)
    (root_url : ParseResult) (accept : string)
    (credentials : option string) (model_def : ModelDefinition)
  : action Response :=
  root_url ← lift (_apply_credentials root_url credentials);
  let package_path :=
    package_path_template (url_path root_url) (package model_def) (version model_def) in
  let package_url := Url._replace_path root_url package_path in
  package_req ← requests.get w (geturl pf package_url) (Some accept);
  if decide (status_code package_req ≠ 200%Z) then
    let message :=
      "Package lookup failed: [" +:+ pretty (status_code package_req) +:+ "] "
      +:+ reason package_req in
    raise (EModelRepo message)
  else mret package_req.

Definition _pypi_simple_query (self : t) (model_def : ModelDefinition)
  : action (string * ParseResult) :=
  pip_index_url ← lift (or_raise (_pip_index_url self) TypeError);
  let simple_root_url := urlparse pf pip_index_url in
  let simple_content_type := _pypi_simple_content_type self in
  credentials ← lift (_get_credentials simple_root_url (_repo_config self));
  package_req ←
    _pypi_package_query SIMPLE_PACKAGE_PATH simple_root_url simple_content_type
      credentials model_def;
  let received_content_type := headers package_req !! "content-type" in
  '(filename, url) ←
    (if decide (received_content_type = Some PIP_SIMPLE_TYPE_JSON) then
       (* a [json.JSONDecodeError] is caught and raised as [EModelRepo] *)
       package_obj ← lift (or_raise (json_loads pf (content package_req))
                             (EModelRepo "Invalid response from model repository"));
       lift (_pypi_simple_parse_response model_def package_obj)
     else if decide (received_content_type = Some PIP_SIMPLE_TYPE_HTML) then
       let package_parser :=
         _PypiSimpleHtmlParser.__init__ (package model_def) (response_url package_req) in
       package_parser ← lift (_PypiSimpleHtmlParser.feed pf package_parser
                                (content package_req));
       lift (_pypi_simple_parse_response model_def
               (_PypiSimpleHtmlParser.response package_parser))
     else
       let err :=
         "Invalid response from package repository: Content type = ["
         +:+ Py.str_of_option received_content_type +:+ "]" in
       raise (EModelRepo err));
  url ← lift (as_str url TypeError);
  let package_url := urlparse pf url in
  package_url ← lift (_apply_credentials package_url credentials);
  mret (filename, package_url).

Definition _pypi_json_query (self : t) (model_def : ModelDefinition)
  : action (pyval * ParseResult) :=
  pip_index ← lift (or_raise (_pip_index self) TypeError);
  let json_root_url := urlparse pf pip_index in
  credentials ← lift (_get_credentials json_root_url (_repo_config self));
  package_req ←
    _pypi_package_query JSON_PACKAGE_PATH json_root_url "application/json"
      credentials model_def;
  package_obj ← lift (or_raise (json_loads pf (content package_req)) JSONDecodeError);
  package_info ← lift (Py.get package_obj "info");
  let package_info := Py.or package_info (VDict ∅) in
  _ ← lift (Py.get package_info "summary");
  urls ← lift (Py.get package_obj "urls");
  urls ←
    match Py.or urls (VList []) with
    | VList l => mret l
    | VStr _ | VDict _ => raise AttributeError
    | _ => raise TypeError
    end;
  bdist_urls ← lift (bdist_wheels urls);
  match bdist_urls with
  | [] => raise (EModelRepo "No compatible packages found")
  | [package_url_info] =>
      package_filename ← lift (Py.get package_url_info "filename");
      url ← lift (Py.get package_url_info "url");
      url ← lift (as_str url TypeError);
      let package_url := urlparse pf url in
      package_url ← lift (_apply_credentials package_url credentials);
      mret (package_filename, package_url)
  | _ =>
      raise (EModelRepo
        "Multiple compatible packages found (specialized distributions are not supported yet)")
  end.

(** The second half of [do_checkout]: download the file and unpack it. *)
Definition download_and_unpack (self : t) (model_def : ModelDefinition)
    (checkout_dir : string) (package_url : ParseResult)
  : action (option string) :=
  download_req ← requests.get w (geturl pf package_url) None;
  let content := content download_req in
  download_whl ← lift (or_raise (zip_open pf content) BadZipFile);
  emit (ExtractAll checkout_dir download_whl);;
  mret (package_path self model_def checkout_dir).

Definition do_checkout (self : t) (model_def : ModelDefinition)
    (checkout_dir : string) : action (option string) :=
  package_url ←
    match _pip_index_url self with
    | Some _ => snd <$> _pypi_simple_query self model_def
    | None => snd <$> _pypi_json_query self model_def
    end;
  download_and_unpack self model_def checkout_dir package_url.

#[global] Instance repo : IModelRepository t :=
  Build_IModelRepository t checkout_key package_path do_checkout.
End platform.

End PyPiRepository.

(** ** The repository manager *)

(** An object of one of the four built-in repository classes. *)
Inductive Repository :=
| Integrated (r : IntegratedSource.t)
| Local (r : LocalRepository.t)
| Git (r : GitRepository.t)
| PyPi (r : PyPiRepository.t).

(** A call of a method of the interface on such an object goes to the
    method of its class. *)
#[global] Instance Repository_repo (pf : Platform) (w : World)
  : IModelRepository Repository :=
  {| checkout_key r :=
       match r with
       | Integrated r => IntegratedSource.checkout_key r
       | Local r => LocalRepository.checkout_key r
       | Git r => GitRepository.checkout_key r
       | PyPi r => PyPiRepository.checkout_key r
       end;
     package_path r :=
       match r with
       | Integrated r => IntegratedSource.package_path r
       | Local r => LocalRepository.package_path pf r
       | Git r => GitRepository.package_path pf r
       | PyPi r => PyPiRepository.package_path r
       end;
     do_checkout r :=
       match r with
       | Integrated r => IntegratedSource.do_checkout r
       | Local r => LocalRepository.do_checkout pf r
       | Git r => GitRepository.do_checkout pf w r
       | PyPi r => PyPiRepository.do_checkout pf w r
       end |}.

Module RepositoryManager.

(** Objects live in a store and are known by their address: two
    references are the same object when the addresses are equal. *)
Abbreviation address := nat.

Section manager.
(** [R] is the type of repository objects; a loader class is called
    with the configuration and returns an object or raises. *)
Context {R : Type}.

Definition loader_class : Type := PluginConfig → result R.
Definition store : Type := list R.

(** [cls.__repo_types[repo_type] = loader_class] *)
Definition register_repo_type (repo_types : gmap string loader_class)
    (repo_type : string) (loader : loader_class) : gmap string loader_class :=
  <[repo_type := loader]> repo_types.

Record t := { _loaders : gmap string address }.

(** The loop of [__init__] over [sys_config.repositories.items()], a
    dict read in insertion order. *)
Fixpoint load_all (repo_types : gmap string loader_class)
    (repositories : list (string * PluginConfig))
    (loaders : gmap string address) (σ : store)
  : result (gmap string address) * store :=
  match repositories with
  | [] => (Ok loaders, σ)
  | (repo_name, repo_config) :: rest =>
      match repo_types !! protocol repo_config with
      | None =>
          let msg :=
            "Model repository type [" +:+ protocol repo_config +:+ "] is not recognised"
            +:+ " (this could indicate a missing model repository plugin)" in
          (Raise (EModelRepoConfig msg), σ)
      | Some loader_class =>
          match loader_class repo_config with
          | Ok loader =>
              (* the new object is stored at the next free address *)
              load_all repo_types rest
                (<[repo_name := length σ]> loaders) (σ ++ [loader])
          | Raise e => (Raise e, σ)
          end
      end
  end.

Definition __init__ (repo_types : gmap string loader_class)
    (repositories : list (string * PluginConfig)) (σ : store)
  : result t * store :=
  match load_all repo_types repositories ∅ σ with
  | (Ok loaders, σ') => (Ok {| _loaders := loaders |}, σ')
  | (Raise e, σ') => (Raise e, σ')
  end.

Definition get_repository (self : t) (repo_name : string) : result address :=
  match _loaders self !! repo_name with
  | Some loader => Ok loader
  | None =>
      let msg :=
        "Model repository [" +:+ repo_name +:+ "] is unknown or not configured"
        +:+ " (this could indicate a missing repository entry in the system config)" in
      Raise (EModelRepoConfig msg)
  end.

End manager.

(** The built-in entries of [__repo_types]. *)
Definition __repo_types (pf : Platform) : gmap string (@loader_class Repository) :=
  <["integrated" := λ c, Integrated <$> IntegratedSource.__init__ c]>
  (<["local" := λ c, Local <$> LocalRepository.__init__ c]>
  (<["git" := λ c, Git <$> GitRepository.__init__ pf c]>
  (<["pypi" := λ c, PyPi <$> PyPiRepository.__init__ c]> ∅))).

End RepositoryManager.

(** ** The vocabulary of the properties *)


(** The text urllib reads the host and the port from. *)
Definition hostport (authority : string) : string :=
  match Str.rpartition "@" authority with
  | Some (_, h) => h
  | None => authority
  end.

(** The process answers the command [cmd], asked after the trace [t], by
    ending with the return code [rc]. *)
Definition exits (w : World) (t : trace) (cmd : list string) (rc : Z) : Prop :=
  ∃ p, process w t cmd = Completed p ∧ returncode p = rc.

(** The trace a Git checkout starts its commands from: on Windows the
    ownership of the directory is taken first. *)
Definition git_start (pf : Platform) (checkout_dir : string) (t : trace) : trace :=
  if is_windows pf
  then t ++ [RunShell ("takeown /f " +:+ dquote +:+ checkout_dir +:+ dquote)]
  else t.

(** One attempt of a Git command. *)
Definition git_run (pf : Platform) (checkout_dir : string) (git_cmd : list string)
  : event :=
  Run (GitRepository.git_cli pf checkout_dir ++ git_cmd) checkout_dir
      GitRepository.GIT_TIMEOUT_SECONDS.

(** The error of a failed Git checkout. *)
Definition git_failed (model_def : ModelDefinition) : exn :=
  EModelRepo ("Git checkout failed for " +:+ package model_def +:+ " "
              +:+ version model_def).

(** The object [loader] is what the class registered for the protocol of
    the entry returns for its configuration. *)
Definition loaded_from {R} (repo_types : gmap string (@RepositoryManager.loader_class R))
    (entry : string * PluginConfig) (loader : R) : Prop :=
  ∃ cls, repo_types !! protocol entry.2 = Some cls ∧ cls entry.2 = Ok loader.

(** *** Wheel file names *)

Fixpoint str_forall (P : ascii → bool) (s : string) : bool :=
  match s with
  | EmptyString => true
  | String a s' => P a && str_forall P s'
  end.









(** The entries of a file record, as the selection reads them. *)
Definition file_name (file_info : pyval) : string :=
  match file_info with
  | VDict d =>
      match Py.or (Py.dict_get d "filename") (VStr "") with
      | VStr s => s
      | _ => ""
      end
  | _ => ""
  end.

Definition file_url (file_info : pyval) : pyval :=
  match file_info with
  | VDict d => Py.dict_get d "url"
  | _ => VNone
  end.


(** A file record is a dict whose file name, when it has one, is a string. *)
Definition file_ok (file_info : pyval) : bool :=
  match file_info with
  | VDict d =>
      match Py.or (Py.dict_get d "filename") (VStr "") with
      | VStr _ => true
      | _ => false
      end
  | _ => false
  end.

(** The name the selection goes by: the one of the listing, or the one of
    the artifact when the listing has none. *)
Definition listing_name (model_def : ModelDefinition) (package_obj : pyval)
  : option string :=
  match package_obj with
  | VDict d =>
      match Py.or (Py.dict_get d "name") (VStr (package model_def)) with
      | VStr s => Some s
      | _ => None
      end
  | _ => None
  end.

(** The files of the listing. *)
Definition listing_files (package_obj : pyval) : option (list pyval) :=
  match package_obj with
  | VDict d =>
      match Py.or (Py.dict_get d "files") (VList []) with
      | VList l => Some l
      | _ => None
      end
  | _ => None
  end.



(** *** Sample inputs

    The inputs of the examples.  The library functions of the sample
    platform are stand-ins, not models of the libraries: a URL is kept as
    its text, and a body that starts with [PK] is an archive of one file. *)

Definition sample_platform : Platform :=
  {| is_windows := false;
     joinpath := λ dir p, dir +:+ "/" +:+ p;
     urlparse := λ s, {| scheme := ""; netloc := ""; url_path := s;
                         params := ""; query := ""; fragment := "" |};
     geturl := λ u, scheme u +:+ netloc u +:+ url_path u;
     urljoin := λ base u, u;
     json_loads := λ _, None;
     html_events := λ _, [];
     zip_open := λ body,
       if String.prefix "PK" body then Some [("mypkg/__init__.py", "")] else None |}.

Definition sample_model : ModelDefinition :=
  {| repository := "models"; package := "mypkg"; packageGroup := None;
     version := "1.0.0"; path := "src" |}.

(** A remote without the tag: [fetch] ends with code 128, the other
    commands with 0.  A server that answers every request with 404 and a
    body that happens to be an archive. *)
Definition sample_world : World :=
  {| process := λ _ cmd,
       Completed {| returncode := if bool_decide ("fetch" ∈ cmd) then 128 else 0;
                    stdout := []; stderr := [] |};
     http := λ _ url _,
       Ok {| status_code := 404; reason := "Not Found"; headers := ∅;
             content := "PK-not-the-wheel"; response_url := url |} |}.

Definition sample_git : GitRepository.t :=
  {| GitRepository._repo_config := {| protocol := "git"; properties := ∅ |};
     GitRepository._repo_url := urlparse sample_platform "https://git.example.org/models.git" |}.

Definition sample_pypi : PyPiRepository.t :=
  {| PyPiRepository._repo_config := {| protocol := "pypi"; properties := ∅ |};
     PyPiRepository._pip_index := None;
     PyPiRepository._pip_index_url := Some "https://pypi.example.org/simple";
     PyPiRepository._pip_simple_format := None |}.

(** A URL without credentials and a configuration with a token. *)
Definition sample_url : ParseResult :=
  {| scheme := "https"; netloc := "git.example.org:8443"; url_path := "/models.git";
     params := ""; query := ""; fragment := "" |}.


(** A PyPI configuration with both index properties. *)
Definition sample_both_indexes : PluginConfig :=
  {| protocol := "pypi";
     properties := <["pipIndex" := "https://pypi.example.org/pypi"]>
                   {["pipIndexUrl" := "https://pypi.example.org/simple"]} |}.

(** A system configuration with two repositories. *)
Definition sample_repositories : list (string * PluginConfig) :=
  [("local_models", {| protocol := "local"; properties := {["repoUrl" := "/opt/models"]} |});
   ("pypi_models", sample_both_indexes)].

(** A file record with a file name and a URL. *)
Definition sample_file (filename : string) : pyval :=
  VDict (<["filename" := VStr filename]>
         {["url" := VStr ("https://files.example.org/" +:+ filename)]}).

(** File listings: the two wheels of the specification; a metadata file
    next to no wheel; a wheel with a normalised name, for the package
    [my.pkg]; a wheel with a line break in its target. *)
Definition sample_two_wheels : pyval :=
  VDict {["files" := VList [sample_file "mypkg-1.0.0-py3-none-any.whl";
                            sample_file "mypkg-1.0.0-linux_x86_64.whl"]]}.






(** *** Further vocabulary *)

(** The configuration holds no credentials: no token, and not both a user
    name and a password. *)
Definition no_config_credentials (cfg : PluginConfig) : Prop :=
  _util.get_plugin_property cfg "token" = None ∧
  (_util.get_plugin_property cfg "username" = None ∨
   _util.get_plugin_property cfg "password" = None).

(** Two URLs that differ in the authority at most. *)
Definition same_but_netloc (url1 url2 : ParseResult) : Prop :=
  scheme url1 = scheme url2 ∧ url_path url1 = url_path url2 ∧
  params url1 = params url2 ∧ query url1 = query url2 ∧
  fragment url1 = fragment url2.

(** The computation only adds to the trace. *)
Definition extends {A} (m : action A) : Prop :=
  ∀ t, t `prefix_of` (m t).2.

(** The events of one Git command: one attempt, or two with the pause
    between them. *)
Definition git_attempts (pf : Platform) (checkout_dir : string)
    (git_cmd : list string) (block : list event) : Prop :=
  block = [git_run pf checkout_dir git_cmd] ∨
  block = [git_run pf checkout_dir git_cmd; Sleep 1; git_run pf checkout_dir git_cmd].




(** The file record of the HTML parser. *)
Definition file_record (filename file_url : string) (hashes : gmap string pyval)
    (is_yanked : bool) : pyval :=
  VDict (<["filename" := VStr filename]>
         (<["url" := VStr file_url]>
         (<["hashes" := VDict hashes]>
         (<["yanked" := VBool is_yanked]> ∅)))).


(** The anchor element with the attributes [a] around the text. *)
Definition anchor (a : attrs) (text : string) : list html_event :=
  [StartTag "a" a; Data text; EndTag "a"].


(** *** Further sample inputs *)

(** A URL with a user and a password, and a configuration without
    credentials. *)
Definition sample_user_url : ParseResult :=
  {| scheme := "https"; netloc := "alice:secret@git.example.org"; url_path := "/models.git";
     params := ""; query := ""; fragment := "" |}.

Definition sample_plain_config : PluginConfig :=
  {| protocol := "git"; properties := {["repoUrl" := "https://git.example.org/models.git"]} |}.

(** A process that ends with return code 0. *)
Definition sample_done : run_result :=
  Completed {| returncode := 0; stdout := []; stderr := [] |}.



Definition sample_slow_world : World :=
  {| process := λ _ cmd, if bool_decide ("fetch" ∈ cmd) then Expired else sample_done;
     http := λ _ _ _, Raise ConnectionError |}.









(** The markup of a small index page, as the events of its tokens. *)
Definition sample_href : string := "mypkg-1.0.0-py3-none-any.whl#sha256=0a1b2c".

Definition sample_attrs : attrs :=
  [("href", Some sample_href); ("data-yanked", None)].

Definition sample_page : list html_event :=
  [StartTag "html" []; StartTag "body" [];
   StartTag "a" sample_attrs; Data " mypkg-1.0.0-py3-none-any.whl "; EndTag "a";
   EndTag "body"; EndTag "html"].


(** Entries of a system configuration: a local repository, and one of a
    protocol without a class. *)
Definition sample_local_entry : string * PluginConfig :=
  ("local_models", {| protocol := "local"; properties := {["repoUrl" := "/opt/models"]} |}).

Definition sample_unknown_entry : string * PluginConfig :=
  ("s3_models", {| protocol := "s3"; properties := ∅ |}).

Definition sample_local : LocalRepository.t :=
  {| LocalRepository._repo_config := sample_local_entry.2;
     LocalRepository._repo_url := "/opt/models" |}.
(* ===================================================================== *)
(** * Part II: properties *)
(* ===================================================================== *)

(** ** Facts about the [str] methods *)

Section str_facts.
Implicit Types (c a : ascii) (s l r : string) (n : nat).

Lemma append_assoc s1 s2 s3 : (s1 +:+ s2) +:+ s3 = s1 +:+ (s2 +:+ s3).
Proof. induction s1 as [|a s1 IH]; simpl; [done | by rewrite IH]. Qed.

Lemma append_nil_r s : s +:+ "" = s.
Proof. induction s as [|a s IH]; simpl; [done | by rewrite IH]. Qed.

Lemma index_app_l c s1 s2 n :
  Str.index c s1 = Some n → Str.index c (s1 +:+ s2) = Some n.
Proof.
  revert n. induction s1 as [|a s1 IH]; intros n; simpl; [done |].
  case_decide; [done |].
  destruct (Str.index c s1) as [m|]; simpl; [| done].
  intros [= <-]. by rewrite (IH m).
Qed.

Lemma index_app_r c s1 s2 :
  Str.index c s1 = None →
  Str.index c (s1 +:+ s2) = (λ n, String.length s1 + n) <$> Str.index c s2.
Proof.
  induction s1 as [|a s1 IH]; simpl.
  - intros _. by destruct (Str.index c s2).
  - case_decide; [done |].
    destruct (Str.index c s1) eqn:E; simpl; [done |]. intros _.
    rewrite IH by done. by destruct (Str.index c s2).
Qed.

(** [s.index(c)] splits [s] at the first [c]. *)
Lemma index_Some c s n :
  Str.index c s = Some n →
  s = Str.take n s +:+ String c (Str.drop (n + 1) s) ∧
  Str.index c (Str.take n s) = None.
Proof.
  revert n. induction s as [|a s IH]; intros n; simpl; [done |].
  case_decide as Hc.
  - intros [= <-]. simpl. by subst.
  - destruct (Str.index c s) as [m|] eqn:E; simpl; [| done].
    intros [= <-]. destruct (IH m eq_refl) as [IH1 IH2]. simpl.
    rewrite <- IH1. split; [done |].
    rewrite decide_False by done. by rewrite IH2.
Qed.

Lemma index_first c l r :
  Str.index c l = None → Str.index c (l +:+ String c r) = Some (String.length l).
Proof.
  intros H. rewrite index_app_r by done. simpl.
  rewrite decide_True by done. simpl. f_equal. lia.
Qed.

Lemma take_app_length l r : Str.take (String.length l) (l +:+ r) = l.
Proof. induction l as [|a l IH]; simpl; [by destruct r | by rewrite IH]. Qed.


Lemma rpartition_None c s : Str.rpartition c s = None ↔ Str.index c s = None.
Proof.
  induction s as [|a s IH]; simpl; [done |].
  destruct (Str.rpartition c s) as [[l r]|] eqn:E.
  - split; [done |]. case_decide; [done |].
    destruct (Str.index c s); simpl; [done |].
    intros _. destruct IH as [_ IH]. discriminate (IH eq_refl).
  - assert (Str.index c s = None) as -> by by apply IH.
    by case_decide.
Qed.

(** [rpartition] looks through a separator when another one follows. *)
Lemma rpartition_app c l r :
  Str.rpartition c (l +:+ String c r) =
  match Str.rpartition c r with
  | Some (l', r') => Some (l +:+ String c l', r')
  | None => Some (l, r)
  end.
Proof.
  induction l as [|a l IH]; simpl.
  - destruct (Str.rpartition c r) as [[l' r']|]; [done |].
    by rewrite decide_True.
  - rewrite IH. by destruct (Str.rpartition c r) as [[l' r']|].
Qed.

Lemma partition_None c s : Str.partition c s = None ↔ Str.index c s = None.
Proof.
  induction s as [|a s IH]; simpl; [done |].
  case_decide; [done |].
  destruct (Str.partition c s), (Str.index c s); simpl; try done.
  - destruct IH as [_ IH]. discriminate (IH eq_refl).
  - destruct IH as [IH _]. discriminate (IH eq_refl).
Qed.

End str_facts.

(** ** Credentials *)

Section credentials.
Implicit Types (url : ParseResult) (cfg : PluginConfig).

Lemma hostport_app l r : hostport (l +:+ String "@" r) = hostport r.
Proof.
  unfold hostport. rewrite rpartition_app.
  by destruct (Str.rpartition "@" r) as [[l' r']|].
Qed.

Lemma hostinfo_hostport url1 url2 :
  hostport (netloc url1) = hostport (netloc url2) →
  Url._hostinfo url1 = Url._hostinfo url2.
Proof. unfold Url._hostinfo, hostport. by intros ->. Qed.

Lemma username_None url :
  Url.username url = None ↔ Str.index "@" (netloc url) = None.
Proof.
  rewrite <- rpartition_None. unfold Url.username, Url._userinfo.
  destruct (Str.rpartition "@" (netloc url)) as [[u h]|]; [| done].
  by destruct (Str.partition ":" u) as [[? ?]|].
Qed.

Lemma username_Some_index url u :
  Url.username url = Some u → ∃ n, Str.index "@" (netloc url) = Some n.
Proof.
  intros H. destruct (Str.index "@" (netloc url)) as [n|] eqn:E; [by eexists |].
  apply username_None in E. congruence.
Qed.



End credentials.

(** ** The Git back end *)

(** Unfolds the operations of the [action] monad. *)
Ltac unfold_action :=
  unfold mbind, mret, fmap, action_bind, action_ret, action_fmap,
    raise, lift, emit, sp.run, requests.get in *.

#[local] Arguments GitRepository.git_cli : simpl never.

Section git.
Context (pf : Platform) (w : World).
Implicit Types (self : GitRepository.t) (m : ModelDefinition)
  (dir : string) (c : list string) (t : trace).

Local Abbreviation cli := (GitRepository.git_cli pf).
Local Abbreviation run_git_cmd := (GitRepository.run_git_cmd pf w).
Local Abbreviation run_git_cmds := (GitRepository.run_git_cmds pf w).

(** A command that ends with return code 0 is run once. *)
Lemma run_git_cmd_ok m dir c t :
  exits w t (cli dir ++ c) 0 →
  run_git_cmd m dir c t = (Ok tt, t ++ [git_run pf dir c]).
Proof.
  intros (p & Hp & Hrc). unfold GitRepository.run_git_cmd. unfold_action.
  rewrite Hp. rewrite decide_False by (rewrite Hrc; tauto).
  by rewrite decide_True.
Qed.

(** A command that ends with another return code is run a second time,
    one second later, and the second attempt decides. *)
Lemma run_git_cmd_retry m dir c t rc :
  exits w t (cli dir ++ c) rc → rc ≠ 0%Z →
  run_git_cmd m dir c t =
    let t2 := t ++ [git_run pf dir c; Sleep 1] in
    (match process w t2 (cli dir ++ c) with
     | Completed p =>
         if decide (returncode p = 0%Z) then Ok tt else Raise (git_failed m)
     | Expired => Raise TimeoutExpired
     end, t2 ++ [git_run pf dir c]).
Proof.
  intros (p & Hp & Hrc) Hne. unfold GitRepository.run_git_cmd. unfold_action.
  rewrite Hp. rewrite decide_True by congruence. cbv zeta.
  rewrite <- (assoc_L (++) t). cbn [app]. fold (git_run pf dir c).
  destruct (process w (t ++ [git_run pf dir c; Sleep 1]) (cli dir ++ c)) as [p2|];
    [| done].
  by destruct (decide (returncode p2 = 0%Z)).
Qed.

Lemma run_git_cmds_app m dir cs1 cs2 t :
  run_git_cmds m dir (cs1 ++ cs2) t =
    match run_git_cmds m dir cs1 t with
    | (Ok _, t1) => run_git_cmds m dir cs2 t1
    | (Raise e, t1) => (Raise e, t1)
    end.
Proof.
  revert t. induction cs1 as [|c cs1 IH]; intros t; simpl; [done |].
  unfold_action. destruct (run_git_cmd m dir c t) as [[[]|e] t1]; [| done].
  apply IH.
Qed.

Lemma do_checkout_cmds self m dir t :
  GitRepository.do_checkout pf w self m dir t =
    match run_git_cmds m dir (GitRepository.git_cmds pf self m) (git_start pf dir t) with
    | (Ok _, t1) => (Ok (GitRepository.package_path pf self m dir), t1)
    | (Raise e, t1) => (Raise e, t1)
    end.
Proof.
  unfold GitRepository.do_checkout, git_start. unfold_action.
  by destruct (is_windows pf).
Qed.


End git.
(** ** The interface: [checkout_key] *)

Section checkout_key.
Context (pf : Platform) (w : World).

(** [loader.checkout_key(model_def)] on an object of a built-in class. *)
Local Abbreviation key pf w := (@checkout_key _ (Repository_repo pf w)).

(** C6. [checkout_key] is a function of the repository object and the
    artifact alone: a constant for the integrated and for the local
    repository, the version of the artifact for Git and PyPI.  It reads
    neither the platform nor the world, so two calls with the same
    artifact, or with artifacts of the same version, return
    the same string, whatever happened in between and wherever they are
    made. *)
Theorem checkout_key_spec (r : Repository) (m : ModelDefinition) :
  key pf w r m =
    match r with
    | Integrated _ => "trac_integrated"
    | Local _ => "trac_local"
    | Git _ | PyPi _ => version m
    end ∧
  (∀ pf' w', key pf' w' r m = key pf w r m) ∧
  (∀ m', version m' = version m → key pf w r m' = key pf w r m).
Proof.
  split; [by destruct r |]. split; [by destruct r |].
  intros m' Hv. destruct r; simpl; try done;
    by unfold GitRepository.checkout_key, PyPiRepository.checkout_key.
Qed.

End checkout_key.

(** ** The PyPI back end: construction and the index modes *)

Section pypi_init.
Context (pf : Platform) (w : World).
Implicit Types (cfg : PluginConfig) (self : PyPiRepository.t).

(** C7, as amended.  Construction needs at least one of [pipIndex] and
    [pipIndexUrl]: it raises the configuration error exactly when both
    are absent.  A constructed back end works in exactly one index mode:
    with [pipIndexUrl] set (be [pipIndex] set or not) every checkout
    queries the simple index, at the URL of that property; otherwise
    [pipIndex] is set and every checkout queries the JSON metadata. *)
Theorem pypi_init_index_mode cfg :
  match _util.get_plugin_property cfg "pipIndex",
        _util.get_plugin_property cfg "pipIndexUrl" with
  | None, None =>
      PyPiRepository.__init__ cfg
        = Raise (EConfigParse
            "Neither [pipIndex] nor [pipIndexUrl is set in PyPi repository config")
  | _, Some index_url =>
      ∃ self,
        PyPiRepository.__init__ cfg = Ok self ∧
        PyPiRepository._pip_index_url self = Some index_url ∧
        ∀ m dir,
          PyPiRepository.do_checkout pf w self m dir =
            (package_url ← snd <$> PyPiRepository._pypi_simple_query pf w self m;
             PyPiRepository.download_and_unpack pf w self m dir package_url)
  | Some index, None =>
      ∃ self,
        PyPiRepository.__init__ cfg = Ok self ∧
        PyPiRepository._pip_index self = Some index ∧
        ∀ m dir,
          PyPiRepository.do_checkout pf w self m dir =
            (package_url ← snd <$> PyPiRepository._pypi_json_query pf w self m;
             PyPiRepository.download_and_unpack pf w self m dir package_url)
  end.
Proof.
  unfold PyPiRepository.__init__, PyPiRepository.PIP_INDEX_KEY,
    PyPiRepository.PIP_INDEX_URL_KEY.
  destruct (_util.get_plugin_property cfg "pipIndex") as [i|],
    (_util.get_plugin_property cfg "pipIndexUrl") as [u|];
    try done; eexists; (split; [done |]); split; done.
Qed.

(** C3, at the failing input.  The response to the download of the file
    is not checked: with status 404 the body is handed to [zipfile] all
    the same.  When the body is an archive it is extracted into the
    checkout directory and the checkout succeeds; when it is not,
    [BadZipFile] is raised.  No repository error is raised in either
    case. *)
Theorem pypi_download_status_unchecked self m dir package_url t resp :
  http w t (geturl pf package_url) None = Ok resp →
  status_code resp = 404%Z →
  PyPiRepository.download_and_unpack pf w self m dir package_url t =
    match zip_open pf (content resp) with
    | Some archive =>
        (Ok (Some dir),
         t ++ [HttpGet (geturl pf package_url) None; ExtractAll dir archive])
    | None =>
        (Raise BadZipFile, t ++ [HttpGet (geturl pf package_url) None])
    end.
Proof.
  intros Hresp _. unfold PyPiRepository.download_and_unpack. unfold_action.
  rewrite Hresp. destruct (zip_open pf (content resp)) as [archive|]; simpl;
    [| done].
  by rewrite <- (assoc_L (++) t).
Qed.

End pypi_init.
(** ** The HTML parser *)

Section html_parser.
Context (pf : Platform).
Implicit Types (self : _PypiSimpleHtmlParser.t) (a : attrs).

Import _PypiSimpleHtmlParser.

Lemma pop_nil {A} : pop (@nil A) = None.
Proof. done. Qed.

Lemma pop_snoc {A} (l : list A) x : pop (l ++ [x]) = Some (x, l).
Proof. unfold pop. rewrite reverse_snoc. by rewrite reverse_involutive. Qed.

(** The closing-tag loop leaves a part of the stack: what it takes away
    it takes from the top. *)
Lemma pop_until_suffix tag stack_tag (top_first : list (string * attrs)) :
  pop_until tag stack_tag top_first `suffix_of` top_first.
Proof.
  revert stack_tag. induction top_first as [|[tag' a'] rest IH]; intros stack_tag;
    simpl; [done |].
  case_decide; [done |]. by apply suffix_cons_r.
Qed.

(** A closing tag that meets a non-empty stack of open tags pops it, and
    raises nothing unless recording the link does. *)
Lemma handle_endtag_pops self tag stack top_tag top_attrs :
  _stack self = stack ++ [(top_tag, top_attrs)] →
  (tag ≠ "a" ∨ top_tag ≠ "a" ∨ _data self = None) →
  ∃ self', handle_endtag pf self tag = Ok self' ∧
           files self' = files self ∧
           reverse (_stack self') `suffix_of` reverse stack.
Proof.
  intros Hstack Hno. unfold handle_endtag. rewrite Hstack, pop_snoc. simpl.
  assert (match _data self with
          | Some data =>
              if bool_decide (tag = "a") && bool_decide (top_tag = "a")
              then _record_link pf (set_stack self stack) data top_attrs
              else Ok (set_stack self stack)
          | None => Ok (set_stack self stack)
          end = Ok (set_stack self stack)) as ->.
  { destruct (_data self) as [data|]; [| done].
    destruct Hno as [H | [H | H]]; [| | done].
    - by rewrite (bool_decide_eq_false_2 _ H).
    - rewrite (bool_decide_eq_false_2 _ H). by rewrite andb_false_r. }
  simpl. eexists. split; [done |]. split; [done |]. simpl.
  rewrite reverse_involutive. apply pop_until_suffix.
Qed.

(** C10, at the failing input.  A closing tag that meets an empty stack
    of open tags raises [IndexError]: the first [pop] is not guarded.
    This is so at the start of the document, and after a closing tag
    without an open partner has emptied the stack. *)
Theorem endtag_on_empty_stack_raises package_name package_url tag :
  handle_endtag pf (__init__ package_name package_url) tag = Raise IndexError ∧
  handle_all pf (__init__ package_name package_url)
    [StartTag "p" []; Data "text"; EndTag "div"; EndTag "p"] = Raise IndexError.
Proof. split; reflexivity. Qed.

Lemma filter_filter_attr (key other : string) a :
  key ≠ other →
  filter (λ x : string * option string, x.1 = key)
    (filter (λ x : string * option string, x.1 ≠ other) a)
  = filter (λ x : string * option string, x.1 = key) a.
Proof.
  intros Hne. induction a as [|[k v] a IH]; [done |].
  rewrite (filter_cons (λ x : string * option string, x.1 ≠ other)).
  destruct (decide ((k, v).1 ≠ other)) as [Hk|Hk]; simpl in Hk.
  - rewrite !(filter_cons (λ x : string * option string, x.1 = key)).
    case_decide; [f_equal |]; exact IH.
  - rewrite (filter_cons (λ x : string * option string, x.1 = key) _ a).
    simpl. rewrite decide_False; [exact IH |]. intros ->. tauto.
Qed.

(** C9, at the failing input.  The value of [data-requires-python] is
    read and then dropped: the record of a link is the same with the
    attribute and without it, and an emitted record has the four keys
    [filename], [url], [hashes] and [yanked] and no other.  For the
    anchor of the example, with the attribute added: the fragment is cut
    off the URL and recorded as the hash, the record is marked yanked,
    and nothing is recorded of the Python requirement. *)
Theorem record_link_drops_requires_python self :
  (∀ filename a,
      _record_link pf self filename a
      = _record_link pf self filename
          (filter (λ x, x.1 ≠ "data-requires-python") a)) ∧
  (∀ filename a,
      match _record_link pf self filename a with
      | Ok self' =>
          files self' = files self ∨
          ∃ d, files self' = files self ++ [VDict d] ∧
               dom d = {[ "filename"; "url"; "hashes"; "yanked" ]}
      | Raise e => e = TypeError
      end) ∧
  _record_link pf self "pkg-1.0-any.whl"
    [("href", Some "pkg-1.0-any.whl#sha256=abc"); ("data-yanked", None);
     ("data-requires-python", Some ">=3.8")]
  = Ok (append_file self
          (VDict (<["filename" := VStr "pkg-1.0-any.whl"]>
                 (<["url" := VStr (urljoin pf (_package_url self) "pkg-1.0-any.whl")]>
                 (<["hashes" := VDict {["sha256" := VStr "abc"]}]>
                 (<["yanked" := VBool true]> ∅)))))).
Proof.
  split; [| split].
  - intros filename a. unfold _record_link.
    rewrite !filter_filter_attr by done.
    destruct (filter (λ x, x.1 = "href") a) as [|[k [href|]] [|]]; done.
  - intros filename a. unfold _record_link.
    destruct (filter (λ x, x.1 = "href") a) as [|[k [href|]] [|]];
      simpl; try (by left); try done.
    destruct (Str.index "#" href); right; eexists; (split; [done |]);
      rewrite !dom_insert_L, dom_empty_L; set_solver.
  - reflexivity.
Qed.

End html_parser.
(** ** The repository manager *)

Section manager.
Context {R : Type}.
Implicit Types (repo_types : gmap string (@RepositoryManager.loader_class R))
  (repositories : list (string * PluginConfig))
  (loaders : gmap string RepositoryManager.address)
  (σ : list R) (self : RepositoryManager.t).

Import RepositoryManager.

Lemma load_all_spec repo_types repositories loaders σ loaders' σ' :
  NoDup repositories.*1 →
  load_all repo_types repositories loaders σ = (Ok loaders', σ') →
  ∃ objs,
    σ' = σ ++ objs ∧
    Forall2 (loaded_from repo_types) repositories objs ∧
    (∀ i entry, repositories !! i = Some entry →
                loaders' !! entry.1 = Some (length σ + i)) ∧
    (∀ name, name ∉ repositories.*1 → loaders' !! name = loaders !! name).
Proof.
  revert loaders σ.
  induction repositories as [|[name cfg] rest IH]; intros loaders σ Hnd;
    cbn [load_all].
  - intros [= <- <-]. exists []. rewrite app_nil_r. by repeat split.
  - rewrite fmap_cons in Hnd. apply NoDup_cons in Hnd as [Hname Hnd].
    cbn [fst] in Hname.
    destruct (repo_types !! protocol cfg) as [cls|] eqn:Hcls; [| done].
    destruct (cls cfg) as [obj|e] eqn:Hobj; [| done].
    intros Hrest. destruct (IH _ _ Hnd Hrest) as (objs & -> & Hall & Hin & Hout).
    exists (obj :: objs). rewrite <- (assoc_L (++) σ). split; [done |].
    split; [| split].
    + constructor; [by exists cls | done].
    + intros [|i] entry.
      * intros [= <-]. cbn [fst]. rewrite (Hout _ Hname), lookup_insert_eq.
        f_equal. lia.
      * intros Hi. change (rest !! i = Some entry) in Hi.
        rewrite (Hin _ _ Hi), length_app. simpl. f_equal. lia.
    + intros name' Hname'. rewrite fmap_cons in Hname'.
      apply not_elem_of_cons in Hname' as [Hne Hname']. cbn [fst] in Hne.
      rewrite (Hout _ Hname'). by rewrite lookup_insert_ne.
Qed.

(** C8. When the manager is built from a configuration (a dict: no name
    twice), every configured entry gets one new object, made by the class
    of its protocol from its configuration, and nothing else is made;
    [get_repository] with a configured name returns the address of the
    object of that entry, the same at every call, and different names
    have different objects; with any other name it raises the error
    "unknown or not configured". *)
Theorem manager_caches_repositories repo_types repositories σ self σ' :
  NoDup repositories.*1 →
  __init__ repo_types repositories σ = (Ok self, σ') →
  ∃ objs,
    σ' = σ ++ objs ∧
    Forall2 (loaded_from repo_types) repositories objs ∧
    (∀ i entry,
        repositories !! i = Some entry →
        get_repository self entry.1 = Ok (length σ + i) ∧
        σ' !! (length σ + i) = objs !! i) ∧
    (∀ name,
        name ∉ repositories.*1 →
        get_repository self name =
          Raise (EModelRepoConfig
            ("Model repository [" +:+ name +:+ "] is unknown or not configured"
             +:+ " (this could indicate a missing repository entry in the system config)"))).
Proof.
  intros Hnd. unfold __init__.
  destruct (load_all repo_types repositories ∅ σ) as [[loaders'|e] σ''] eqn:Hload;
    [| done].
  intros [= <- <-].
  destruct (load_all_spec _ _ _ _ _ _ Hnd Hload) as (objs & -> & Hall & Hin & Hout).
  exists objs. split; [done |]. split; [done |]. split.
  - intros i entry Hi. unfold get_repository. simpl. rewrite (Hin _ _ Hi).
    split; [done |]. rewrite lookup_app_r by lia. f_equal. lia.
  - intros name Hname. unfold get_repository. simpl.
    by rewrite (Hout _ Hname), lookup_empty.
Qed.

End manager.
(** ** The file pattern of the PyPI selection *)

Section file_pattern.
Implicit Types (s pre v t rest : string) (a : ascii) (p : list re.node)
  (pos : nat) (opens : gmap string nat) (sp r : re.spans).



(** *** Compiling the pattern *)







(** *** Matching *)








(** *** The selection *)





End file_pattern.
(** ** Examples *)



(** C3 on the sample world: the server answers 404, the body is an
    archive, and it is unpacked into the checkout directory. *)
Lemma pypi_download_of_404_unpacked :
  PyPiRepository.download_and_unpack sample_platform sample_world sample_pypi
    sample_model "/tmp/checkout"
    (urlparse sample_platform "https://files.example.org/mypkg-1.0.0-py3-none-any.whl") []
  = (Ok (Some "/tmp/checkout"),
     [HttpGet "https://files.example.org/mypkg-1.0.0-py3-none-any.whl" None;
      ExtractAll "/tmp/checkout" [("mypkg/__init__.py", "")]]).
Proof.
  exact (pypi_download_status_unchecked sample_platform sample_world sample_pypi
           sample_model "/tmp/checkout"
           (urlparse sample_platform
              "https://files.example.org/mypkg-1.0.0-py3-none-any.whl") []
           {| status_code := 404; reason := "Not Found"; headers := ∅;
              content := "PK-not-the-wheel";
              response_url := "https://files.example.org/mypkg-1.0.0-py3-none-any.whl" |}
           eq_refl eq_refl).
Defined.

(** C7: the specification asks for exactly one of the two properties,
    and a configuration with both is accepted. *)
Lemma pypi_init_accepts_both_indexes :
  _util.get_plugin_property sample_both_indexes "pipIndex"
    = Some "https://pypi.example.org/pypi" ∧
  _util.get_plugin_property sample_both_indexes "pipIndexUrl"
    = Some "https://pypi.example.org/simple" ∧
  PyPiRepository.__init__ sample_both_indexes
    = Ok {| PyPiRepository._repo_config := sample_both_indexes;
            PyPiRepository._pip_index := Some "https://pypi.example.org/pypi";
            PyPiRepository._pip_index_url := Some "https://pypi.example.org/simple";
            PyPiRepository._pip_simple_format := None |}.
Proof. repeat split; reflexivity. Qed.

(** C8 on the sample configuration: two objects are made, one for each
    name. *)
Lemma manager_of_sample_repositories :
  ∃ self σ',
    RepositoryManager.__init__ (RepositoryManager.__repo_types sample_platform)
      sample_repositories [] = (Ok self, σ') ∧
    ∃ objs,
      σ' = [] ++ objs ∧
      Forall2 (loaded_from (RepositoryManager.__repo_types sample_platform))
        sample_repositories objs ∧
      (∀ i entry,
          sample_repositories !! i = Some entry →
          RepositoryManager.get_repository self entry.1 = Ok (length (@nil Repository) + i) ∧
          σ' !! (length (@nil Repository) + i) = objs !! i) ∧
      (∀ name,
          name ∉ sample_repositories.*1 →
          RepositoryManager.get_repository self name =
            Raise (EModelRepoConfig
              ("Model repository [" +:+ name +:+ "] is unknown or not configured"
               +:+ " (this could indicate a missing repository entry in the system config)"))).
Proof.
  eexists _, _. split; [vm_compute; reflexivity |].
  apply manager_caches_repositories.
  - apply (bool_decide_unpack (NoDup sample_repositories.*1)). vm_compute. exact I.
  - vm_compute. reflexivity.
Defined.




Example two_wheels_error :
  PyPiRepository._pypi_simple_parse_response sample_model sample_two_wheels
  = Raise (EModelRepo
      "Multiple packages found for [mypkg] version [1.0.0] (targets: py3-none-any, linux_x86_64)").
Proof. vm_compute. reflexivity. Qed.
(** ** More on credentials *)

Section credentials_more.
Implicit Types (url : ParseResult) (cfg : PluginConfig) (c : string).

Lemma replace_netloc_id url : Url._replace_netloc url (netloc url) = url.
Proof. by destruct url. Qed.

Lemma drop_app_length_S l a r : Str.drop (String.length l + 1) (l +:+ String a r) = r.
Proof. induction l as [|b l IH]; simpl; [done | exact IH]. Qed.

(** [_get_credentials] returns: the index it looks up is always there. *)
Lemma get_credentials_total url cfg :
∃ credentials, _get_credentials url cfg = Ok credentials.
Proof.
unfold _get_credentials.
destruct (_util.get_plugin_property cfg __REPO_TOKEN_KEY); [by eexists |].
assert (∃ credentials : option string, match Url.username url with
             | Some (String _ _) =>
                 credentials_sep ← or_raise (Str.index "@" (netloc url)) ValueError;
                 Ok (Some (Str.take credentials_sep (netloc url)))
             | _ => Ok None
             end = Ok credentials) as Hurl.
{ destruct (Url.username url) as [[|a u]|] eqn:Hu; [by eexists | | by eexists].
  destruct (username_Some_index _ _ Hu) as [n ->]. by eexists. }
destruct (_util.get_plugin_property cfg __REPO_USER_KEY),
  (_util.get_plugin_property cfg __REPO_PASS_KEY); by eauto.
Qed.

(** Without credentials in the configuration, the ones of the URL count. *)
Lemma get_credentials_of_url url cfg :
no_config_credentials cfg →
_get_credentials url cfg =
  match Url.username url with
  | Some (String _ _) =>
      credentials_sep ← or_raise (Str.index "@" (netloc url)) ValueError;
      Ok (Some (Str.take credentials_sep (netloc url)))
  | _ => Ok None
  end.
Proof.
intros [Htoken Huser]. unfold _get_credentials, __REPO_TOKEN_KEY,
  __REPO_USER_KEY, __REPO_PASS_KEY. rewrite Htoken.
destruct Huser as [-> | ->]; [done |].
by destruct (_util.get_plugin_property cfg "username").
Qed.

(** [_apply_credentials] returns, and changes the authority only, and of
  the authority neither the host nor the port. *)
Lemma apply_credentials_total url (credentials : option string) :
∃ url', _apply_credentials url credentials = Ok url' ∧
        same_but_netloc url' url ∧
        Url._hostinfo url' = Url._hostinfo url.
Proof.
destruct credentials as [c|]; [| by exists url].
unfold _apply_credentials.
destruct (Url.username url) as [u|] eqn:Hu.
- destruct (username_Some_index _ _ Hu) as [n Hn].
  destruct (index_Some _ _ _ Hn) as [Hsplit _]. rewrite Hn. simpl.
  eexists. split; [done |]. split; [done |].
  apply hostinfo_hostport. simpl. rewrite hostport_app.
  rewrite Hsplit at 2. by rewrite hostport_app.
- simpl. eexists. split; [done |]. split; [done |].
  apply hostinfo_hostport. simpl. by rewrite hostport_app.
Qed.

(** X1.  When the configuration holds no credentials, applying to a URL
  the credentials read from it gives the URL back: the URL of a
  repository is used as it was written. *)
Theorem apply_own_credentials url cfg :
no_config_credentials cfg →
∃ credentials,
  _get_credentials url cfg = Ok credentials ∧
  _apply_credentials url credentials = Ok url.
Proof.
intros Hcfg. rewrite (get_credentials_of_url _ _ Hcfg).
destruct (Url.username url) as [[|a u]|] eqn:Hu; [by eexists | | by eexists].
destruct (username_Some_index _ _ Hu) as [n Hn].
destruct (index_Some _ _ _ Hn) as [Hsplit _]. rewrite Hn. simpl.
eexists. split; [done |]. unfold _apply_credentials. rewrite Hu, Hn. simpl.
rewrite <- Hsplit. by rewrite replace_netloc_id.
Qed.

Lemma apply_credentials_again url c rest :
Str.index "@" c = None →
_apply_credentials (Url._replace_netloc url (c +:+ "@" +:+ rest)) (Some c)
= Ok (Url._replace_netloc url (c +:+ "@" +:+ rest)).
Proof.
intros Hc. unfold _apply_credentials.
destruct (Url.username (Url._replace_netloc url (c +:+ "@" +:+ rest)))
  as [u|] eqn:Hu.
- simpl. rewrite (index_first _ _ _ Hc). simpl.
  by rewrite drop_app_length_S.
- apply username_None in Hu. simpl in Hu.
  by rewrite (index_first _ _ _ Hc) in Hu.
Qed.

(** X2.  Credentials without an ["@"] are applied idempotently: applying
  them to the URL that already carries them changes nothing. *)
Theorem apply_credentials_idempotent url c :
Str.index "@" c = None →
∃ url',
  _apply_credentials url (Some c) = Ok url' ∧
  _apply_credentials url' (Some c) = Ok url'.
Proof.
intros Hc. unfold _apply_credentials at 1.
destruct (Url.username url) as [u|] eqn:Hu.
- destruct (username_Some_index _ _ Hu) as [n Hn]. rewrite Hn. simpl.
  eexists. split; [done |]. by apply apply_credentials_again.
- simpl. eexists. split; [done |]. by apply apply_credentials_again.
Qed.

Lemma username_of_applied url a c rest :
a ≠ ":"%char →
∃ b u, Url.username (Url._replace_netloc url (String a c +:+ "@" +:+ rest))
       = Some (String b u).
Proof.
intros Ha. unfold Url.username, Url._userinfo. simpl.
change (String a (c +:+ String "@" rest))
  with (String a c +:+ String "@" rest).
rewrite rpartition_app.
assert (∀ ui : string, ∃ b u,
          (match Str.partition ":" (String a ui) with
           | Some (u0, p) => (Some u0, Some p)
           | None => (Some (String a ui), None)
           end).1 = Some (String b u)) as Hui.
{ intros ui. simpl. rewrite decide_False by done.
  destruct (Str.partition ":" ui) as [[u0 p]|]; simpl; by eauto. }
destruct (Str.rpartition "@" rest) as [[l' r']|]; apply Hui.
Qed.

(** X3.  Credentials that were applied are read back: when the
  configuration holds none, and the credentials hold no ["@"] and do not
  start with a colon, [_get_credentials] on the URL they were applied to
  returns them. *)
Theorem get_applied_credentials url cfg a c :
no_config_credentials cfg →
Str.index "@" (String a c) = None → a ≠ ":"%char →
∃ url',
  _apply_credentials url (Some (String a c)) = Ok url' ∧
  _get_credentials url' cfg = Ok (Some (String a c)).
Proof.
intros Hcfg Hc Ha.
assert (∀ rest,
          _get_credentials (Url._replace_netloc url (String a c +:+ "@" +:+ rest)) cfg
          = Ok (Some (String a c))) as Hget.
{ intros rest. rewrite (get_credentials_of_url _ _ Hcfg).
  destruct (username_of_applied url a c rest Ha) as (b & u & ->).
  cbn [netloc Url._replace_netloc].
  change (String a c +:+ "@" +:+ rest) with (String a c +:+ String "@" rest).
  rewrite (index_first _ _ _ Hc). cbn [or_raise mbind result_bind].
  by rewrite take_app_length. }
unfold _apply_credentials.
destruct (Url.username url) as [u|] eqn:Hu.
- destruct (username_Some_index _ _ Hu) as [n Hn]. rewrite Hn. simpl.
  eexists. split; [done |]. apply Hget.
- simpl. eexists. split; [done |]. apply Hget.
Qed.

End credentials_more.

(** ** Construction of the Git and local back ends *)

Section construction.
Context (pf : Platform).
Implicit Types (cfg : PluginConfig).


End construction.
(** ** Computations only add to the trace *)

Section extends.
Context {A B : Type}.

Lemma extends_ret (a : A) : extends (mret a).
Proof. intros t. by unfold_action. Qed.

Lemma extends_raise e : extends (@raise A e).
Proof. intros t. by unfold_action. Qed.

Lemma extends_lift (r : result A) : extends (lift r).
Proof. intros t. by unfold_action. Qed.

Lemma extends_emit e : extends (emit e).
Proof. intros t. unfold_action. simpl. by apply prefix_app_r. Qed.

Lemma extends_bind (m : action A) (f : A → action B) :
extends m → (∀ a, extends (f a)) → extends (m ≫= f).
Proof.
intros Hm Hf t. specialize (Hm t). unfold_action.
destruct (m t) as [[a|e] t1]; simpl in *; [| done].
etrans; [exact Hm | apply Hf].
Qed.

Lemma extends_fmap (g : A → B) (m : action A) : extends m → extends (g <$> m).
Proof.
intros Hm t. specialize (Hm t). unfold_action.
by destruct (m t) as [[a|e] t1].
Qed.

End extends.

Lemma extends_sp_run w cmd cwd timeout : extends (sp.run w cmd cwd timeout).
Proof.
  intros t. unfold sp.run. destruct (process w t cmd); simpl; by apply prefix_app_r.
Qed.

Lemma extends_requests_get w url accept : extends (requests.get w url accept).
Proof. intros t. unfold requests.get. simpl. by apply prefix_app_r. Qed.

(** Proves [extends] for a computation built from the operations above. *)
Ltac solve_extends :=
  repeat first
    [ apply extends_ret | apply extends_raise | apply extends_lift
    | apply extends_emit | apply extends_sp_run | apply extends_requests_get
    | apply extends_fmap
    | apply extends_bind; [| intros ?]
    | match goal with
      | |- extends (match ?x with _ => _ end) => destruct x
      | |- extends (let '(_, _) := ?x in _) => destruct x
      end ].

(** ** More on the Git back end *)

Section git_more.
Context (pf : Platform) (w : World).
Implicit Types (self : GitRepository.t) (m : ModelDefinition)
(dir : string) (c : list string) (t : trace).

Local Abbreviation cli := (GitRepository.git_cli pf).
Local Abbreviation run_git_cmd := (GitRepository.run_git_cmd pf w).
Local Abbreviation run_git_cmds := (GitRepository.run_git_cmds pf w).

(** A command that times out is not run again. *)
Lemma run_git_cmd_expired m dir c t :
process w t (cli dir ++ c) = Expired →
run_git_cmd m dir c t = (Raise TimeoutExpired, t ++ [git_run pf dir c]).
Proof.
intros H. unfold GitRepository.run_git_cmd. unfold_action. by rewrite H.
Qed.

(** One command leaves one attempt in the trace, or two and the pause;
  it leaves two when it raises the repository error. *)
Lemma run_git_cmd_attempts m dir c t :
∃ block,
  git_attempts pf dir c block ∧
  (run_git_cmd m dir c t).2 = t ++ block.
Proof.
destruct (process w t (cli dir ++ c)) as [p|] eqn:Hp.
- destruct (decide (returncode p = 0%Z)) as [Hrc|Hrc].
  + rewrite run_git_cmd_ok by by exists p. exists [git_run pf dir c].
    split; [by left | done].
  + rewrite (run_git_cmd_retry _ _ _ _ _ _ (returncode p)) by (done || by exists p).
    cbv zeta. exists [git_run pf dir c; Sleep 1; git_run pf dir c].
    split; [by right |]. simpl. by rewrite <- (assoc_L (++) t).
- rewrite run_git_cmd_expired by done. exists [git_run pf dir c].
  split; [by left | done].
Qed.

Lemma run_git_cmds_attempts m dir cs t :
∃ ran blocks,
  ran `prefix_of` cs ∧
  Forall2 (git_attempts pf dir) ran blocks ∧
  (run_git_cmds m dir cs t).2 = t ++ concat blocks ∧
  ((run_git_cmds m dir cs t).1 = Ok tt → ran = cs).
Proof.
revert t. induction cs as [|c cs IH]; intros t.
- exists [], []. simpl. unfold_action. simpl. rewrite app_nil_r.
  repeat split; [done | constructor].
- destruct (run_git_cmd_attempts m dir c t) as (block & Hblock & Ht).
  cbn [GitRepository.run_git_cmds]. unfold mbind, action_bind.
  destruct (run_git_cmd m dir c t) as [[[]|e] t1] eqn:E; simpl in Ht; subst t1.
  + destruct (IH (t ++ block)) as (ran & blocks & Hran & Hblocks & Ht' & Hok).
    exists (c :: ran), (block :: blocks). split; [by apply prefix_cons |].
    split; [by constructor |]. split.
    * rewrite Ht'. simpl. by rewrite (assoc_L (++)).
    * intros H. by rewrite (Hok H).
  + exists [c], [block]. split; [apply prefix_cons, prefix_nil |].
    split; [constructor; [done | constructor] |]. simpl. rewrite app_nil_r.
    by split.
Qed.

(** X5.  Whatever the processes answer, a Git checkout runs nothing but
  its four commands, in their order, each once or twice, with a pause of
  one second between the two attempts of a command; when it returns, it
  has run them all. *)
Theorem git_checkout_trace self m dir t :
∃ ran blocks,
  ran `prefix_of` GitRepository.git_cmds pf self m ∧
  Forall2 (git_attempts pf dir) ran blocks ∧
  (GitRepository.do_checkout pf w self m dir t).2
    = git_start pf dir t ++ concat blocks ∧
  (∀ p, (GitRepository.do_checkout pf w self m dir t).1 = Ok p →
        ran = GitRepository.git_cmds pf self m).
Proof.
destruct (run_git_cmds_attempts m dir (GitRepository.git_cmds pf self m)
            (git_start pf dir t)) as (ran & blocks & Hran & Hblocks & Ht & Hok).
exists ran, blocks. split; [done |]. split; [done |].
rewrite do_checkout_cmds.
destruct (run_git_cmds m dir _ _) as [[[]|e] t1]; simpl in *.
- split; [done |]. intros _ _. by apply Hok.
- by split.
Qed.


(** X7.  A command that times out is not tried again: the checkout raises
  [TimeoutExpired] after the one attempt, and the steps after it are not
  run. *)
Theorem git_checkout_timeout self m dir before c after t t1 :
GitRepository.git_cmds pf self m = before ++ c :: after →
run_git_cmds m dir before (git_start pf dir t) = (Ok tt, t1) →
process w t1 (cli dir ++ c) = Expired →
GitRepository.do_checkout pf w self m dir t
= (Raise TimeoutExpired, t1 ++ [git_run pf dir c]).
Proof.
intros Hcmds Hbefore Hexp.
rewrite do_checkout_cmds, Hcmds, run_git_cmds_app, Hbefore.
cbn [GitRepository.run_git_cmds]. unfold mbind, action_bind.
by rewrite run_git_cmd_expired.
Qed.


End git_more.
(** ** More on the PyPI back end *)

Section pypi_more.
Context (pf : Platform) (w : World).
Implicit Types (self : PyPiRepository.t) (m : ModelDefinition)
(dir : string) (t : trace).

Lemma extends_package_query template root accept credentials m :
extends (PyPiRepository._pypi_package_query pf w template root accept credentials m).
Proof. unfold PyPiRepository._pypi_package_query. solve_extends. Qed.

Lemma extends_simple_query self m :
extends (PyPiRepository._pypi_simple_query pf w self m).
Proof.
unfold PyPiRepository._pypi_simple_query.
solve_extends; try apply extends_package_query.
Qed.

Lemma extends_json_query self m :
extends (PyPiRepository._pypi_json_query pf w self m).
Proof.
unfold PyPiRepository._pypi_json_query.
solve_extends; try apply extends_package_query.
Qed.

Lemma extends_download self m dir package_url :
extends (PyPiRepository.download_and_unpack pf w self m dir package_url).
Proof. unfold PyPiRepository.download_and_unpack. solve_extends. Qed.

Lemma extends_pypi_checkout self m dir :
extends (PyPiRepository.do_checkout pf w self m dir).
Proof.
unfold PyPiRepository.do_checkout.
solve_extends; first [apply extends_simple_query | apply extends_json_query
                     | apply extends_download].
Qed.

Lemma download_returns self m dir package_url t p t' :
PyPiRepository.download_and_unpack pf w self m dir package_url t = (Ok p, t') →
p = Some dir.
Proof.
unfold PyPiRepository.download_and_unpack. unfold_action.
destruct (http w t _ None) as [resp|e]; [| done].
destruct (zip_open pf (content resp)); simpl; [| done]. by intros [= <- _].
Qed.

Lemma pypi_checkout_returns self m dir t p t' :
PyPiRepository.do_checkout pf w self m dir t = (Ok p, t') → p = Some dir.
Proof.
unfold PyPiRepository.do_checkout. unfold mbind at 1. unfold action_bind.
destruct (PyPiRepository._pip_index_url self).
- destruct ((snd <$> PyPiRepository._pypi_simple_query pf w self m) t)
    as [[url|e] t1]; [| done].
  apply download_returns.
- destruct ((snd <$> PyPiRepository._pypi_json_query pf w self m) t)
    as [[url|e] t1]; [| done].
  apply download_returns.
Qed.

(** X9.  The format of the simple index asked for is JSON unless the
  configuration says [html]: an unknown value of [pipSimpleFormat] falls
  back to JSON like a missing one. *)
Theorem simple_content_type_fallback self :
PyPiRepository._pypi_simple_content_type self =
  if decide (PyPiRepository._pip_simple_format self = Some "html")
  then "text/html"
  else "application/vnd.pypi.simple.v1+json".
Proof.
unfold PyPiRepository._pypi_simple_content_type.
destruct (PyPiRepository._pip_simple_format self) as [f|]; [| done].
cbn [mbind option_bind]. unfold PyPiRepository.PIP_SIMPLE_CONTENT_TYPES,
  PyPiRepository.PIP_SIMPLE_FORMAT_JSON, PyPiRepository.PIP_SIMPLE_FORMAT_HTML.
destruct (decide (f = "json")) as [->|Hj]; [done |].
rewrite lookup_insert_ne by done.
destruct (decide (f = "html")) as [->|Hh]; [done |].
rewrite lookup_insert_ne, lookup_empty by done.
rewrite decide_False by congruence. done.
Qed.








End pypi_more.
(** ** More on the HTML parser *)

Section html_more.
Context (pf : Platform).
Implicit Types (self : _PypiSimpleHtmlParser.t) (a : attrs) (evs : list html_event).

Import _PypiSimpleHtmlParser.


Lemma pop_until_same tag (top_first : list (string * attrs)) :
pop_until tag tag top_first = top_first.
Proof. destruct top_first as [|[tag' a'] rest]; simpl; [done | by rewrite decide_True]. Qed.

Lemma record_meta_fields self a :
_stack (_record_meta self a) = _stack self ∧
_data (_record_meta self a) = _data self ∧
files (_record_meta self a) = files self ∧
name (_record_meta self a) = name self ∧
_package_url (_record_meta self a) = _package_url self.
Proof.
unfold _record_meta.
by destruct (filter (λ x, x.1 = "content") a) as [|[k v] [|]].
Qed.

Lemma handle_starttag_fields self tag a :
_stack (handle_starttag self tag a) = _stack self ++ [(tag, a)] ∧
_data (handle_starttag self tag a) = None ∧
files (handle_starttag self tag a) = files self ∧
name (handle_starttag self tag a) = name self ∧
_package_url (handle_starttag self tag a) = _package_url self.
Proof.
unfold handle_starttag.
destruct (_ && _); [| done].
destruct (record_meta_fields
            (set_data (set_stack self (_stack self ++ [(tag, a)])) None) a)
  as (-> & -> & -> & -> & ->). done.
Qed.

(** Recording a link adds at most one file, leaves the rest of the parser
  as it is, and raises at most [TypeError]. *)
Lemma record_link_fields self filename a :
match _record_link pf self filename a with
| Ok self' =>
    _stack self' = _stack self ∧ _data self' = _data self ∧
    name self' = name self ∧ _package_url self' = _package_url self ∧
    (files self' = files self ∨
     ∃ url hashes yanked,
       files self' = files self ++ [file_record filename url hashes yanked])
| Raise e => e = TypeError
end.
Proof.
unfold _record_link.
destruct (filter (λ x, x.1 = "href") a) as [|[k [href|]] [|]];
  simpl; try done; try (repeat split; by left).
destruct (Str.index "#" href); repeat split; right; by eexists _, _, _.
Qed.






Lemma strip_spaces s : str_forall Str.is_space s = true → Str.strip s = "".
Proof.
unfold Str.strip. induction s as [|b s IH]; simpl; [done |].
intros [Hb Hs]%andb_true_iff. rewrite Hb. by apply IH.
Qed.



(** X16.  An anchor adds no file and raises nothing when it has no text,
  when its text is white space only, or when it has no [href] or more
  than one; the stack is left as it was. *)
Theorem anchor_dropped self a :
(∃ self', handle_all pf self [StartTag "a" a; EndTag "a"] = Ok self' ∧
          _stack self' = _stack self ∧ files self' = files self) ∧
(∀ text, str_forall Str.is_space text = true →
         ∃ self', handle_all pf self (anchor a text) = Ok self' ∧
                  _stack self' = _stack self ∧ files self' = files self) ∧
(∀ text, length (filter (λ x, x.1 = "href") a) ≠ 1 →
         ∃ self', handle_all pf self (anchor a text) = Ok self' ∧
                  _stack self' = _stack self ∧ files self' = files self).
Proof.
assert (∀ data,
          (data = None ∨ length (filter (λ x, x.1 = "href") a) ≠ 1) →
          ∃ self',
            handle_endtag pf
              (set_data (set_data (set_stack self (_stack self ++ [("a", a)])) None)
                 data) "a" = Ok self' ∧
            _stack self' = _stack self ∧ files self' = files self) as Hend.
{ intros data Hdata. unfold handle_endtag.
  cbn [_stack set_stack set_data]. rewrite pop_snoc.
  cbn [or_raise mbind result_bind _data set_stack set_data].
  assert (match data with
          | Some d =>
              if bool_decide ("a" = "a") && bool_decide ("a" = "a")
              then _record_link pf
                     (set_stack (set_data (set_data
                        (set_stack self (_stack self ++ [("a", a)])) None) data)
                        (_stack self)) d a
              else Ok (set_stack (set_data (set_data
                        (set_stack self (_stack self ++ [("a", a)])) None) data)
                        (_stack self))
          | None => Ok (set_stack (set_data (set_data
                        (set_stack self (_stack self ++ [("a", a)])) None) data)
                        (_stack self))
          end = Ok (set_stack (set_data (set_data
                        (set_stack self (_stack self ++ [("a", a)])) None) data)
                        (_stack self))) as ->.
  { destruct data as [d|]; [| done]. destruct Hdata as [? | Hlen]; [done |].
    rewrite !bool_decide_eq_true_2 by done. cbn [andb]. unfold _record_link.
    by destruct (filter (λ x, x.1 = "href") a) as [|[k v] [|]]. }
  cbn [mbind result_bind]. eexists. split; [done |]. simpl.
  by rewrite pop_until_same, reverse_involutive. }
assert (handle_starttag self "a" a
        = set_data (set_stack self (_stack self ++ [("a", a)])) None) as Hstart.
{ unfold handle_starttag. by rewrite bool_decide_eq_false_2 by done. }
split; [| split].
- cbn [handle_all handle mbind result_bind]. rewrite Hstart.
  destruct (Hend None) as (self' & H1 & H2); [by left |].
  replace (set_data (set_data (set_stack self (_stack self ++ [("a", a)])) None) None)
    with (set_data (set_stack self (_stack self ++ [("a", a)])) None) in H1 by done.
  rewrite H1. by exists self'.
- intros text Htext. unfold anchor.
  cbn [handle_all handle mbind result_bind]. rewrite Hstart. unfold handle_data.
  rewrite (strip_spaces _ Htext). cbn [Str.truthy].
  destruct (Hend None) as (self' & H1 & H2); [by left |].
  rewrite H1. by exists self'.
- intros text Hlen. unfold anchor.
  cbn [handle_all handle mbind result_bind]. rewrite Hstart. unfold handle_data.
  destruct (Hend (if Str.truthy (Str.strip text) then Some (Str.strip text) else None))
    as (self' & H1 & H2); [by right |].
  rewrite H1. by exists self'.
Qed.


Lemma file_record_ok filename url hashes yanked :
file_ok (file_record filename url hashes yanked) = true ∧
file_name (file_record filename url hashes yanked) = filename.
Proof.
unfold file_ok, file_name, file_record, Py.dict_get.
rewrite lookup_insert_eq. cbn [default]. by destruct filename.
Qed.

(** Any closing tag: the parser keeps its name and its URL, and adds at
  most one file, named after the text it holds. *)
Lemma handle_endtag_fields self tag self' :
handle_endtag pf self tag = Ok self' →
_data self' = _data self ∧ name self' = name self ∧
_package_url self' = _package_url self ∧
(files self' = files self ∨
 ∃ filename url hashes yanked,
   _data self = Some filename ∧
   files self' = files self ++ [file_record filename url hashes yanked]).
Proof.
unfold handle_endtag.
destruct (pop (_stack self)) as [[[stack_tag stack_attrs] stack]|]; [| done].
cbn [or_raise mbind result_bind]. cbv beta iota zeta.
destruct (_data self) as [data|] eqn:Hdata; cbn [_data set_stack];
  rewrite ?Hdata.
- destruct (bool_decide (tag = "a") && bool_decide (stack_tag = "a")).
  + pose proof (record_link_fields (set_stack self stack) data stack_attrs) as Hlink.
    destruct (_record_link pf (set_stack self stack) data stack_attrs)
      as [self1|e]; [| done].
    destruct Hlink as (H1 & H2 & H3 & H4 & H5). intros [= <-]. simpl.
    rewrite H2, H3, H4. repeat split; try done.
    destruct H5 as [H5 | (url & hashes & yanked & H5)]; [by left |].
    right. by exists data, url, hashes, yanked.
  + intros [= <-]. simpl. rewrite Hdata. repeat split. by left.
- intros [= <-]. simpl. rewrite Hdata. repeat split. by left.
Qed.

Lemma strip_truthy_data self data :
_data (handle_data self data) ≠ Some "".
Proof.
unfold handle_data. simpl. by destruct (Str.strip data).
Qed.

(** What every step of the parser keeps: the text it holds is not empty,
  and the files are records with a file name. *)
Lemma handle_all_records self evs self' :
handle_all pf self evs = Ok self' →
_data self ≠ Some "" →
Forall (λ f, file_ok f = true ∧ file_name f ≠ "") (files self) →
name self' = name self ∧ _package_url self' = _package_url self ∧
files self `prefix_of` files self' ∧
Forall (λ f, file_ok f = true ∧ file_name f ≠ "") (files self').
Proof.
revert self. induction evs as [|ev evs IH]; intros self.
- intros [= <-] _ Hfiles. by repeat split.
- cbn [handle_all mbind result_bind]. unfold mbind, result_bind.
  destruct (handle pf self ev) as [self1|e] eqn:Hev; [| done].
  intros Hrest Hdata Hfiles.
  assert (name self1 = name self ∧ _package_url self1 = _package_url self ∧
          files self `prefix_of` files self1 ∧ _data self1 ≠ Some "" ∧
          Forall (λ f, file_ok f = true ∧ file_name f ≠ "") (files self1))
    as (Hn & Hu & Hp & Hd & Hf).
  { destruct ev as [tag a|tag|data]; simpl in Hev.
    - injection Hev as <-.
      destruct (handle_starttag_fields self tag a) as (_ & -> & -> & -> & ->).
      by repeat split.
    - destruct (handle_endtag_fields _ _ _ Hev) as (-> & -> & -> & Hfs).
      repeat split; try done.
      + destruct Hfs as [-> | (fn & url & h & y & _ & ->)]; [done |].
        by apply prefix_app_r.
      + destruct Hfs as [-> | (fn & url & h & y & Hfn & ->)]; [done |].
        apply Forall_app. split; [done |]. apply Forall_singleton.
        destruct (file_record_ok fn url h y) as [-> ->]. split; [done |].
        intros ->. by rewrite Hfn in Hdata.
    - injection Hev as <-. repeat split; try done. apply strip_truthy_data. }
  destruct (IH _ Hrest Hd Hf) as (-> & -> & Hp' & Hf').
  repeat split; try done. by etrans.
Qed.

(** X18.  Whatever markup the parser has read, what it hands to the
  selection is a listing the selection reads without a type error: its
  files are the records the parser added, each a dict with a file name
  that is a non-empty string, and its name is the name of the package
  asked for. *)
Theorem parser_output_well_formed m package_url evs self' :
handle_all pf (__init__ (package m) package_url) evs = Ok self' →
Forall (λ f, file_ok f = true ∧ file_name f ≠ "") (files self') ∧
listing_files (response self') = Some (files self') ∧
listing_name m (response self') = Some (package m).
Proof.
intros Hall.
destruct (handle_all_records _ _ _ Hall) as (Hn & _ & _ & Hf);
  [done | by constructor |].
split; [done |]. unfold listing_files, listing_name, response, Py.dict_get.
rewrite !lookup_insert_ne, !lookup_insert_eq by done.
rewrite lookup_insert_ne, lookup_insert_eq by done. cbn [default].
rewrite Hn. cbn [name __init__]. split.
- by destruct (files self').
- by destruct (package m).
Qed.

End html_more.
(** ** The interface: [do_checkout] *)

Section checkout.
Context (pf : Platform) (w : World).

Lemma extends_run_git_cmd m dir c : extends (GitRepository.run_git_cmd pf w m dir c).
Proof. unfold GitRepository.run_git_cmd. solve_extends. Qed.

Lemma extends_run_git_cmds m dir cs : extends (GitRepository.run_git_cmds pf w m dir cs).
Proof.
induction cs as [|c cs IH]; simpl; [apply extends_ret |].
apply extends_bind; [apply extends_run_git_cmd | by intros []].
Qed.

Lemma extends_git_checkout self m dir :
extends (GitRepository.do_checkout pf w self m dir).
Proof.
unfold GitRepository.do_checkout. solve_extends; apply extends_run_git_cmds.
Qed.

(** X19.  For an object of any of the four built-in classes: a checkout
  only adds to what has happened, and when it returns, it returns what
  [package_path] says for the same artifact and directory. *)
Theorem checkout_returns_package_path (r : Repository) m dir t :
t `prefix_of` (@do_checkout _ (Repository_repo pf w) r m dir t).2 ∧
∀ p, (@do_checkout _ (Repository_repo pf w) r m dir t).1 = Ok p →
     p = @package_path _ (Repository_repo pf w) r m dir.
Proof.
destruct r as [r|r|r|r]; cbn [do_checkout package_path Repository_repo].
- split; [done |]. by intros p [= <-].
- split; [done |]. by intros p [= <-].
- split; [apply extends_git_checkout |]. rewrite do_checkout_cmds.
  destruct (GitRepository.run_git_cmds pf w m dir _ _) as [[[]|e] t1];
    [| done]. by intros p [= <-].
- split; [apply extends_pypi_checkout |]. intros p Hp.
  destruct (PyPiRepository.do_checkout pf w r m dir t) as [res t'] eqn:E.
  simpl in Hp. subst res. by rewrite (pypi_checkout_returns _ _ _ _ _ _ _ _ E).
Qed.

End checkout.

(** ** More on the repository manager *)

Section manager_more.
Context {R : Type}.
Implicit Types (repo_types : gmap string (@RepositoryManager.loader_class R))
(repositories : list (string * PluginConfig))
(loaders : gmap string RepositoryManager.address)
(σ : list R).

Import RepositoryManager.

(** The entries that load are passed, each leaving its object. *)
Lemma load_all_app repo_types before objs rest loaders σ :
Forall2 (loaded_from repo_types) before objs →
∃ loaders',
  load_all repo_types (before ++ rest) loaders σ
  = load_all repo_types rest loaders' (σ ++ objs).
Proof.
intros Hall. revert loaders σ.
induction Hall as [|[name cfg] obj before objs (cls & Hcls & Hobj) _ IH];
  intros loaders σ.
- exists loaders. by rewrite app_nil_r.
- cbn [app load_all]. simpl in Hcls, Hobj. rewrite Hcls, Hobj.
  destruct (IH (<[name := length σ]> loaders) (σ ++ [obj])) as [loaders' ->].
  exists loaders'. by rewrite <- (assoc_L (++) σ).
Qed.

(** X20.  The construction of a manager stops at the first entry that
  does not load: an entry of a protocol that is not registered raises
  the configuration error that names the protocol, an entry whose class
  raises fails with that error; the entries before it have been loaded,
  those after it are never looked at. *)
Theorem manager_init_stops_at_first_failure repo_types before objs name cfg after σ :
Forall2 (loaded_from repo_types) before objs →
match repo_types !! protocol cfg with
| None =>
    __init__ repo_types (before ++ (name, cfg) :: after) σ
    = (Raise (EModelRepoConfig
         ("Model repository type [" +:+ protocol cfg +:+ "] is not recognised"
          +:+ " (this could indicate a missing model repository plugin)")),
       σ ++ objs)
| Some cls =>
    ∀ e, cls cfg = Raise e →
         __init__ repo_types (before ++ (name, cfg) :: after) σ
         = (Raise e, σ ++ objs)
end.
Proof.
intros Hall. unfold __init__.
destruct (load_all_app repo_types before objs ((name, cfg) :: after) ∅ σ Hall)
  as [loaders' ->].
cbn [load_all]. destruct (repo_types !! protocol cfg) as [cls|]; [| done].
by intros e ->.
Qed.

(** X21.  A class registered for a protocol is the one a manager uses for
  the entries of that protocol, also when another class was registered
  for it before; the entries of other protocols load as they did. *)
Theorem register_repo_type_used repo_types repo_type loader :
(∀ name cfg σ,
    protocol cfg = repo_type →
    __init__ (register_repo_type repo_types repo_type loader) [(name, cfg)] σ
    = match loader cfg with
      | Ok obj => (Ok {| _loaders := {[name := length σ]} |}, σ ++ [obj])
      | Raise e => (Raise e, σ)
      end) ∧
(∀ repositories σ,
    Forall (λ entry, protocol entry.2 ≠ repo_type) repositories →
    __init__ (register_repo_type repo_types repo_type loader) repositories σ
    = __init__ repo_types repositories σ).
Proof.
split.
- intros name cfg σ <-. unfold __init__, register_repo_type. cbn [load_all].
  rewrite lookup_insert_eq. destruct (loader cfg). 2: { done. }
  cbn [load_all]. by rewrite insert_empty.
- intros repositories σ Hother. unfold __init__.
  generalize (∅ : gmap string address). revert σ.
  induction Hother as [|[name cfg] repositories Hne _ IH]; intros σ loaders;
    [done |].
  cbn [load_all]. unfold register_repo_type at 1.
  rewrite lookup_insert_ne by done.
  unfold loader_class in *.
  destruct (repo_types !! protocol cfg) as [cls|]; [| done].
  destruct (cls cfg); [apply IH | done].
Qed.

End manager_more.

Section builtin_types.
Context (pf : Platform).

(** X22.  With the built-in classes, the object of an entry is of the
  class of its protocol, built from its configuration: a local
  repository holds the non-empty [repoUrl] of the entry, and a PyPI
  repository has an index to query. *)
Theorem builtin_loader_by_protocol (entry : string * PluginConfig) (obj : Repository) :
loaded_from (RepositoryManager.__repo_types pf) entry obj →
match obj with
| Integrated r =>
    protocol entry.2 = "integrated" ∧ IntegratedSource._repo_config r = entry.2
| Local r =>
    protocol entry.2 = "local" ∧
    LocalRepository._repo_url r ≠ "" ∧
    _util.get_plugin_property entry.2 "repoUrl" = Some (LocalRepository._repo_url r)
| Git r =>
    protocol entry.2 = "git" ∧ GitRepository._repo_config r = entry.2
| PyPi r =>
    protocol entry.2 = "pypi" ∧
    (PyPiRepository._pip_index_url r ≠ None ∨ PyPiRepository._pip_index r ≠ None)
end.
Proof.
destruct entry as [name cfg]. intros (cls & Hcls & Hobj). simpl in *.
unfold RepositoryManager.__repo_types in Hcls.
repeat (apply lookup_insert_Some in Hcls as [[Hp <-] | [_ Hcls]];
        [rewrite <- Hp |]); try done.
- unfold IntegratedSource.__init__ in Hobj. simpl in Hobj.
  injection Hobj as <-. done.
- unfold LocalRepository.__init__, LocalRepository.REPO_URL_KEY in Hobj.
  destruct (_util.get_plugin_property cfg "repoUrl") as [[|a u]|]; try done.
  simpl in Hobj. injection Hobj as <-. done.
- unfold GitRepository.__init__, GitRepository.REPO_URL_KEY in Hobj.
  destruct (_util.get_plugin_property cfg "repoUrl") as [[|a u]|]; try done.
  destruct (get_credentials_total (urlparse pf (String a u)) cfg) as [c Hc].
  rewrite Hc in Hobj. unfold mbind, result_bind in Hobj.
  destruct (apply_credentials_total (urlparse pf (String a u)) c)
    as (url' & Happly & _).
  rewrite Happly in Hobj. simpl in Hobj. injection Hobj as <-. done.
- unfold PyPiRepository.__init__, PyPiRepository.PIP_INDEX_KEY,
    PyPiRepository.PIP_INDEX_URL_KEY in Hobj.
  destruct (_util.get_plugin_property cfg "pipIndex") as [i|],
    (_util.get_plugin_property cfg "pipIndexUrl") as [u|];
    simpl in Hobj; try done; injection Hobj as <-; split; try done;
    simpl; by eauto.
Qed.

End builtin_types.

(** ** The properties above on the sample inputs *)

(** X1 on a URL with a user and a password. *)
Lemma apply_own_credentials_sample :
  ∃ credentials,
    _get_credentials sample_user_url sample_plain_config = Ok credentials ∧
    _apply_credentials sample_user_url credentials = Ok sample_user_url.
Proof.
  apply apply_own_credentials. split; [reflexivity | left; reflexivity].
Defined.

(** X2 with a token. *)
Lemma apply_credentials_idempotent_sample :
  ∃ url',
    _apply_credentials sample_url (Some "ghp_secret") = Ok url' ∧
    _apply_credentials url' (Some "ghp_secret") = Ok url'.
Proof.
  apply apply_credentials_idempotent. reflexivity.
Defined.

(** X3 with a token. *)
Lemma get_applied_credentials_sample :
  ∃ url',
    _apply_credentials sample_url (Some "ghp_secret") = Ok url' ∧
    _get_credentials url' sample_plain_config = Ok (Some "ghp_secret").
Proof.
  apply (get_applied_credentials sample_url sample_plain_config "g" "hp_secret").
  - split; [reflexivity | left; reflexivity].
  - reflexivity.
  - discriminate.
Defined.


(** X7 on the world where [fetch] does not end in time. *)
Lemma git_checkout_timeout_sample :
  GitRepository.do_checkout sample_platform sample_slow_world sample_git sample_model
    "/tmp/checkout" []
  = (Raise TimeoutExpired,
     [Run ["git"; "-C"; "/tmp/checkout"; "init"] "/tmp/checkout" 30;
      Run ["git"; "-C"; "/tmp/checkout"; "remote"; "add"; "origin";
           "https://git.example.org/models.git"] "/tmp/checkout" 30;
      Run ["git"; "-C"; "/tmp/checkout"; "fetch"; "--depth=1"; "origin"; "1.0.0"]
        "/tmp/checkout" 30]).
Proof.
  apply (git_checkout_timeout sample_platform sample_slow_world sample_git
           sample_model "/tmp/checkout"
           [["init"]; ["remote"; "add"; "origin"; "https://git.example.org/models.git"]]
           ["fetch"; "--depth=1"; "origin"; "1.0.0"]
           [["reset"; "--hard"; "FETCH_HEAD"]] []
           [Run ["git"; "-C"; "/tmp/checkout"; "init"] "/tmp/checkout" 30;
            Run ["git"; "-C"; "/tmp/checkout"; "remote"; "add"; "origin";
                 "https://git.example.org/models.git"] "/tmp/checkout" 30]);
    vm_compute; reflexivity.
Defined.









(** X18 on the sample page. *)
Lemma parser_output_of_sample_page :
  ∃ self',
    _PypiSimpleHtmlParser.handle_all sample_platform
      (_PypiSimpleHtmlParser.__init__ (package sample_model)
         "https://pypi.example.org/simple/mypkg/") sample_page = Ok self' ∧
    Forall (λ f, file_ok f = true ∧ file_name f ≠ "")
      (_PypiSimpleHtmlParser.files self') ∧
    listing_files (_PypiSimpleHtmlParser.response self')
      = Some (_PypiSimpleHtmlParser.files self') ∧
    listing_name sample_model (_PypiSimpleHtmlParser.response self')
      = Some (package sample_model).
Proof.
  eexists. split; [vm_compute; reflexivity |].
  apply (parser_output_well_formed sample_platform sample_model
           "https://pypi.example.org/simple/mypkg/" sample_page).
  vm_compute. reflexivity.
Defined.

(** X20 on a configuration whose second entry has an unknown protocol. *)
Lemma manager_init_unknown_protocol :
  RepositoryManager.__init__ (RepositoryManager.__repo_types sample_platform)
    ([sample_local_entry] ++ sample_unknown_entry :: sample_repositories) []
  = (Raise (EModelRepoConfig
       ("Model repository type [s3] is not recognised"
        +:+ " (this could indicate a missing model repository plugin)")),
     [] ++ [Local sample_local]).
Proof.
  apply (manager_init_stops_at_first_failure
           (RepositoryManager.__repo_types sample_platform)
           [sample_local_entry] [Local sample_local] "s3_models"
           sample_unknown_entry.2 sample_repositories []).
  constructor; [| constructor]. eexists. split; reflexivity.
Defined.

(** X22 on the local entry. *)
Lemma builtin_loader_of_local_entry :
  protocol sample_local_entry.2 = "local" ∧
  LocalRepository._repo_url sample_local ≠ "" ∧
  _util.get_plugin_property sample_local_entry.2 "repoUrl"
    = Some (LocalRepository._repo_url sample_local).
Proof.
  apply (builtin_loader_by_protocol sample_platform sample_local_entry
           (Local sample_local)).
  eexists. split; reflexivity.
Defined.
